(** * Guard orchestration of the Groq + SLM guardrails chat backend

    A shallow embedding of [backend/guards/base.py],
    [backend/guards/ollama_guard.py], the four guard modules,
    [backend/config.py], [backend/session_store.py] and the chat pipeline of
    [backend/main.py], with the properties of the guard engine proved over
    it.

    Conventions.
    - A Python [str] is a [string]; the model is exact for ASCII text
      ([str.lower], [str.strip] and the regular expression class [\s] are
      the ASCII ones, a character is one byte).
    - A verdict is a [str] in the code and stays a [string] here.
    - A call that can raise or overrun the runner's wait returns an
      [outcome]; exceptions carry the text [str(e)] prints.
    - The mutable module global [_sessions] is threaded explicitly; the
      read-only globals ([_config], the Ollama and Groq services, the JSON
      decoder) are section variables. *)

From Stdlib Require Import ZArith Ascii.
From stdpp Require Import base option list strings gmap pretty.

Local Open Scope Z_scope.

(* ===================================================================== *)
(** * Python string primitives *)
(* ===================================================================== *)

Module Py.

(** [str.isspace] on one ASCII character: TAB, LF, VT, FF, CR, the four
    separators FS, GS, RS, US, and the space. *)
Definition is_space (c : ascii) : bool :=
  let n := N_of_ascii c in
  ((9 <=? n) && (n <=? 13) || (28 <=? n) && (n <=? 32))%N.

Definition lower_char (c : ascii) : ascii :=
  let n := N_of_ascii c in
  if ((65 <=? n) && (n <=? 90))%N then ascii_of_N (n + 32) else c.

(** [s.lower()] *)
Fixpoint lower (s : string) : string :=
  match s with
  | EmptyString => EmptyString
  | String c s' => String (lower_char c) (lower s')
  end.

(** [len(s)] *)
Definition len (s : string) : nat := String.length s.

(** [s.lstrip()], [s.rstrip()], [s.strip()] *)
Fixpoint lstrip (s : string) : string :=
  match s with
  | EmptyString => EmptyString
  | String c s' => if is_space c then lstrip s' else s
  end.

Fixpoint rstrip (s : string) : string :=
  match s with
  | EmptyString => EmptyString
  | String c s' =>
      match rstrip s' with
      | EmptyString => if is_space c then EmptyString else String c EmptyString
      | r => String c r
      end
  end.

Definition strip (s : string) : string := rstrip (lstrip s).

(** [s[:n]] and [s[n:]] for [n >= 0] *)
Fixpoint take (n : nat) (s : string) : string :=
  match n, s with
  | S n', String c s' => String c (take n' s')
  | _, _ => EmptyString
  end.

Fixpoint drop (n : nat) (s : string) : string :=
  match n, s with
  | S n', String _ s' => drop n' s'
  | _, _ => s
  end.

(** [s[i:j]] for indices already known to be within [0 .. len(s)];
    a [j] at or below [i] gives the empty string, as in Python. *)
Definition slice (s : string) (i j : Z) : string :=
  take (Z.to_nat (j - i)) (drop (Z.to_nat i) s).

(** [s.startswith(p)] *)
Fixpoint startswith (s p : string) {struct p} : bool :=
  match p, s with
  | EmptyString, _ => true
  | String a p', String b s' => if Ascii.eqb a b then startswith s' p' else false
  | String _ _, EmptyString => false
  end.

(** [p in s] *)
Fixpoint contains (s p : string) : bool :=
  startswith s p ||
  match s with
  | EmptyString => false
  | String _ s' => contains s' p
  end.

(** [s.find(c)] for a one-character needle: the first index, or -1. *)
Fixpoint find (s : string) (c : ascii) : Z :=
  match s with
  | EmptyString => -1
  | String a s' =>
      if Ascii.eqb a c then 0
      else let r := find s' c in if r =? -1 then -1 else r + 1
  end.

(** [s.rfind(c)] for a one-character needle: the last index, or -1. *)
Fixpoint rfind (s : string) (c : ascii) : Z :=
  match s with
  | EmptyString => -1
  | String a s' =>
      let r := rfind s' c in
      if r =? -1 then (if Ascii.eqb a c then 0 else -1) else r + 1
  end.

(** [s.split(sep)] for a one-character separator; never the empty list. *)
Fixpoint split (s : string) (sep : ascii) : list string :=
  match s with
  | EmptyString => [EmptyString]
  | String c s' =>
      if Ascii.eqb c sep then EmptyString :: split s' sep
      else match split s' sep with
           | h :: t => String c h :: t
           | [] => [String c EmptyString]
           end
  end.

(** [sep.join(l)] *)
Fixpoint join (sep : string) (l : list string) : string :=
  match l with
  | [] => EmptyString
  | [x] => x
  | x :: l' => x +:+ sep +:+ join sep l'
  end.

(** Truthiness of a [str]. *)
Definition nonempty (s : string) : bool :=
  match s with EmptyString => false | _ => true end.

(** [a or b] on two strings. *)
Definition or_str (a b : string) : string := if nonempty a then a else b.


End Py.

Definition LF : ascii := ascii_of_N 10.
Definition NL : string := String LF EmptyString.

(* ===================================================================== *)
(** * Outcomes of calls: return, raise, or overrun *)
(* ===================================================================== *)

(** The exceptions the pipeline tells apart. [Exception msg] stands for any
    other exception class under [Exception], with [str(e) = msg]. *)
Inductive exn : Type :=
  | FuturesTimeoutError
  | HTTPException (status_code : Z) (detail : string)
  | Exception (msg : string).

(** [str(e)] *)
Definition exn_str (e : exn) : string :=
  match e with
  | FuturesTimeoutError => ""
  | HTTPException status detail => pretty status +:+ ": " +:+ detail
  | Exception msg => msg
  end.

(** What a caller observes of a call: its value, the exception it raised,
    or, for work submitted to the thread pool, that it had not completed
    when the runner stopped waiting for it. Such a call still ends later
    (the executor's [with] block is left once every submitted call has
    ended); a call that never ends is outside the model. *)
Inductive outcome (A : Type) : Type :=
  | Returns (a : A)
  | Raises (e : exn)
  | Overruns.
Arguments Returns {A} a.
Arguments Raises {A} e.
Arguments Overruns {A}.

#[global] Instance outcome_bind : MBind outcome := fun A B k m =>
  match m with
  | Returns a => k a
  | Raises e => Raises e
  | Overruns => Overruns
  end.

(** [try: body  except Exception as e: handler(e)] *)
Definition try_except {A} (body : outcome A) (handler : exn -> outcome A)
  : outcome A :=
  match body with
  | Raises e => handler e
  | other => other
  end.

(* ===================================================================== *)
(** * backend/guards/base.py: the result type and the aggregation *)
(* ===================================================================== *)

Record GuardResult : Type := mkGuardResult {
  name : string;
  verdict : string;
  reason : string;
  model : string
}.

Definition verdict_is_block (r : GuardResult) : bool :=
  String.eqb (verdict r) "block".

(** [any(r.verdict == "block" for r in results)] *)
Fixpoint any_block (results : list GuardResult) : bool :=
  match results with
  | [] => false
  | r :: rest => if verdict_is_block r then true else any_block rest
  end.

(** The [for] loop of [get_blocking_guard]: the first hit is returned. *)
Fixpoint get_blocking_guard (results : list GuardResult) : option GuardResult :=
  match results with
  | [] => None
  | r :: rest => if verdict_is_block r then Some r else get_blocking_guard rest
  end.

(* ===================================================================== *)
(** * Python values, as [json.loads] produces them *)
(* ===================================================================== *)

(** A [float] is kept as what the code can observe of it: whether it is
    non-zero (its truthiness) and the text [str] prints for it. *)
#[warnings="-register-all"]
Inductive pyval : Type :=
  | PNone
  | PBool (b : bool)
  | PInt (n : Z)
  | PFloat (nonzero : bool) (repr : string)
  | PStr (s : string)
  | PList (items : list pyval)
  | PDict (items : list (string * pyval)).

(** [bool(v)] *)
Definition truthy (v : pyval) : bool :=
  match v with
  | PNone => false
  | PBool b => b
  | PInt n => negb (n =? 0)
  | PFloat nonzero _ => nonzero
  | PStr s => Py.nonempty s
  | PList items => match items with [] => false | _ => true end
  | PDict items => match items with [] => false | _ => true end
  end.

(** [a or b] *)
Definition py_or (a b : pyval) : pyval := if truthy a then a else b.

(** [d.get(k)]: the value under [k], or [None]. *)
Fixpoint dict_get (d : list (string * pyval)) (k : string) : pyval :=
  match d with
  | [] => PNone
  | (k', v) :: d' => if String.eqb k' k then v else dict_get d' k
  end.

(** [d[k] = v]: an existing key keeps its position. *)
Fixpoint dict_set (d : list (string * pyval)) (k : string) (v : pyval)
  : list (string * pyval) :=
  match d with
  | [] => [(k, v)]
  | (k', v') :: d' =>
      if String.eqb k' k then (k', v) :: d' else (k', v') :: dict_set d' k v
  end.

Definition hex_digit (n : N) : ascii :=
  if (n <? 10)%N then ascii_of_N (48 + n) else ascii_of_N (87 + n).

(** [repr(s)] of an ASCII string: single quotes unless the text has a
    single quote and no double quote; backslash escapes for the quote, the
    backslash, TAB, LF, CR, and [\xNN] for the other control characters. *)
Definition repr_char (quote c : ascii) : string :=
  let n := N_of_ascii c in
  if Ascii.eqb c quote || Ascii.eqb c "\"%char
  then String "\"%char (String c EmptyString)
  else if (n =? 9)%N then "\t"
  else if (n =? 10)%N then "\n"
  else if (n =? 13)%N then "\r"
  else if ((n <? 32) || (n =? 127))%N
  then "\x" +:+ String (hex_digit (n / 16)) (String (hex_digit (n mod 16)) EmptyString)
  else String c EmptyString.

Fixpoint repr_body (quote : ascii) (s : string) : string :=
  match s with
  | EmptyString => EmptyString
  | String c s' => repr_char quote c +:+ repr_body quote s'
  end.

Definition repr_str (s : string) : string :=
  let quote :=
    if Py.contains s "'" && negb (Py.contains s (String (ascii_of_N 34) EmptyString))
    then ascii_of_N 34 else "'"%char in
  String quote (repr_body quote s) +:+ String quote EmptyString.

(** [repr(v)] *)
Fixpoint py_repr (v : pyval) : string :=
  match v with
  | PNone => "None"
  | PBool true => "True"
  | PBool false => "False"
  | PInt n => pretty n
  | PFloat _ r => r
  | PStr s => repr_str s
  | PList items => "[" +:+ Py.join ", " (map py_repr items) +:+ "]"
  | PDict items =>
      "{" +:+ Py.join ", "
                (map (fun kv => match kv with
                                | (k, x) => repr_str k +:+ ": " +:+ py_repr x
                                end) items) +:+ "}"
  end.

(** [str(v)] *)
Definition py_str (v : pyval) : string :=
  match v with
  | PStr s => s
  | _ => py_repr v
  end.

(* ===================================================================== *)
(** * A reference JSON decoder *)
(* ===================================================================== *)

(** [Json.loads] follows [json.loads] on ASCII documents: a text decodes to
    a dict, or decoding fails ([None], Python's [JSONDecodeError]). It is
    the decoder the closed examples run; the theorems of the engine hold
    for every decoder. A float prints as its lexeme, [\uXXXX] escapes above
    U+007F are stored as UTF-8 bytes, and the interpreter's limits on
    nesting depth and integer size are not modelled. *)
Module Json.

Inductive token : Type :=
  | TLBrace | TRBrace | TLBracket | TRBracket | TComma | TColon
  | TString (s : string)
  | TWord (w : string).

Inductive lex_state : Type :=
  | LTop
  | LWord (acc : list ascii)
  | LStr (acc : list ascii)
  | LEsc (acc : list ascii)
  | LHex (acc : list ascii) (seen : nat) (v : N).

Definition text_of (acc : list ascii) : string :=
  String.string_of_list_ascii (rev acc).

Definition is_ws (c : ascii) : bool :=
  let n := N_of_ascii c in
  ((n =? 32) || (n =? 9) || (n =? 10) || (n =? 13))%N.

Definition is_digit (c : ascii) : bool :=
  let n := N_of_ascii c in ((48 <=? n) && (n <=? 57))%N.

Definition is_alpha (c : ascii) : bool :=
  let n := N_of_ascii c in
  ((65 <=? n) && (n <=? 90) || (97 <=? n) && (n <=? 122))%N.

(** The characters of numbers and of the literals [null], [true], [false],
    [NaN], [Infinity], [-Infinity]; none can follow a value directly. *)
Definition is_word_char (c : ascii) : bool :=
  is_digit c || is_alpha c || Ascii.eqb c "+" || Ascii.eqb c "-" || Ascii.eqb c ".".

Definition hex_val (c : ascii) : option N :=
  let n := N_of_ascii c in
  if ((48 <=? n) && (n <=? 57))%N then Some (n - 48)%N
  else if ((65 <=? n) && (n <=? 70))%N then Some (n - 55)%N
  else if ((97 <=? n) && (n <=? 102))%N then Some (n - 87)%N
  else None.

(** The UTF-8 bytes of a code point below U+10000, last byte first. *)
Definition utf8_rev (v : N) : list ascii :=
  (if v <? 128 then [ascii_of_N v]
   else if v <? 2048 then [ascii_of_N (128 + v mod 64); ascii_of_N (192 + v / 64)]
   else [ascii_of_N (128 + v mod 64); ascii_of_N (128 + (v / 64) mod 64);
         ascii_of_N (224 + v / 4096)])%N.

Definition lex_top (c : ascii) (out : list token)
  : option (lex_state * list token) :=
  if is_ws c then Some (LTop, out)
  else if Ascii.eqb c "{" then Some (LTop, TLBrace :: out)
  else if Ascii.eqb c "}" then Some (LTop, TRBrace :: out)
  else if Ascii.eqb c "[" then Some (LTop, TLBracket :: out)
  else if Ascii.eqb c "]" then Some (LTop, TRBracket :: out)
  else if Ascii.eqb c "," then Some (LTop, TComma :: out)
  else if Ascii.eqb c ":" then Some (LTop, TColon :: out)
  else if Ascii.eqb c (ascii_of_N 34) then Some (LStr [], out)
  else if is_word_char c then Some (LWord [c], out)
  else None.

Definition lex_escape (acc : list ascii) (c : ascii) : option lex_state :=
  if Ascii.eqb c (ascii_of_N 34) || Ascii.eqb c "\" || Ascii.eqb c "/"
  then Some (LStr (c :: acc))
  else if Ascii.eqb c "b" then Some (LStr (ascii_of_N 8 :: acc))
  else if Ascii.eqb c "f" then Some (LStr (ascii_of_N 12 :: acc))
  else if Ascii.eqb c "n" then Some (LStr (ascii_of_N 10 :: acc))
  else if Ascii.eqb c "r" then Some (LStr (ascii_of_N 13 :: acc))
  else if Ascii.eqb c "t" then Some (LStr (ascii_of_N 9 :: acc))
  else if Ascii.eqb c "u" then Some (LHex acc 0 0%N)
  else None.

Definition lex_step (st : lex_state) (c : ascii) (out : list token)
  : option (lex_state * list token) :=
  match st with
  | LTop => lex_top c out
  | LWord acc =>
      if is_word_char c then Some (LWord (c :: acc), out)
      else lex_top c (TWord (text_of acc) :: out)
  | LStr acc =>
      if Ascii.eqb c (ascii_of_N 34) then Some (LTop, TString (text_of acc) :: out)
      else if Ascii.eqb c "\" then Some (LEsc acc, out)
      else if (N_of_ascii c <? 32)%N then None
      else Some (LStr (c :: acc), out)
  | LEsc acc =>
      match lex_escape acc c with
      | Some st' => Some (st', out)
      | None => None
      end
  | LHex acc seen v =>
      match hex_val c with
      | Some d =>
          let v' := (v * 16 + d)%N in
          if (seen =? 3)%nat then Some (LStr (utf8_rev v' ++ acc), out)
          else Some (LHex acc (S seen) v', out)
      | None => None
      end
  end.

Fixpoint lex (s : string) (st : lex_state) (out : list token)
  : option (list token) :=
  match s with
  | EmptyString =>
      match st with
      | LTop => Some (rev out)
      | LWord acc => Some (rev (TWord (text_of acc) :: out))
      | _ => None
      end
  | String c s' =>
      match lex_step st c out with
      | Some (st', out') => lex s' st' out'
      | None => None
      end
  end.

(** Numbers: an optional minus sign; an integer part that is 0 or starts
    with a non-zero digit; an optional fraction of a dot and digits; an
    optional exponent of e or E, an optional sign and digits. *)
Fixpoint span_digits (s : string) : string * string :=
  match s with
  | String c s' =>
      if is_digit c then let '(d, r) := span_digits s' in (String c d, r)
      else (EmptyString, s)
  | EmptyString => (EmptyString, EmptyString)
  end.

Fixpoint digits_value (s : string) (acc : Z) : Z :=
  match s with
  | EmptyString => acc
  | String c s' => digits_value s' (acc * 10 + (Z.of_N (N_of_ascii c) - 48))
  end.

Fixpoint all_zero (s : string) : bool :=
  match s with
  | EmptyString => true
  | String c s' => Ascii.eqb c "0" && all_zero s'
  end.

Definition valid_exponent (s : string) : bool :=
  match s with
  | String e r =>
      (Ascii.eqb e "e" || Ascii.eqb e "E") &&
      (let r' := match r with
                 | String sg r1 =>
                     if Ascii.eqb sg "+" || Ascii.eqb sg "-" then r1 else r
                 | EmptyString => r
                 end in
       let '(d, rest) := span_digits r' in
       Py.nonempty d && negb (Py.nonempty rest))
  | EmptyString => false
  end.

Definition number (w : string) : option pyval :=
  let '(neg, body) :=
    match w with
    | String c r => if Ascii.eqb c "-" then (true, r) else (false, w)
    | EmptyString => (false, w)
    end in
  let '(int_part, r1) := span_digits body in
  let int_ok :=
    match int_part with
    | EmptyString => false
    | String c EmptyString => true
    | String c _ => negb (Ascii.eqb c "0")
    end in
  if negb int_ok then None
  else match r1 with
       | EmptyString =>
           let n := digits_value int_part 0 in
           Some (PInt (if neg then - n else n))
       | String c r2 =>
           if Ascii.eqb c "." then
             let '(frac, r3) := span_digits r2 in
             if Py.nonempty frac && (negb (Py.nonempty r3) || valid_exponent r3)
             then Some (PFloat (negb (all_zero int_part && all_zero frac)) w)
             else None
           else if valid_exponent r1
           then Some (PFloat (negb (all_zero int_part)) w)
           else None
       end.

Definition word_value (w : string) : option pyval :=
  if String.eqb w "null" then Some PNone
  else if String.eqb w "true" then Some (PBool true)
  else if String.eqb w "false" then Some (PBool false)
  else if String.eqb w "NaN" then Some (PFloat true "nan")
  else if String.eqb w "Infinity" then Some (PFloat true "inf")
  else if String.eqb w "-Infinity" then Some (PFloat true "-inf")
  else number w.

(** The containers under construction, innermost first. *)
Inductive frame : Type :=
  | FList (items_rev : list pyval)
  | FDict (items : list (string * pyval)) (key : string).

Inductive expect : Type :=
  | EValue          (* a value *)
  | EFirstItem      (* just after '[': a value or ']' *)
  | EFirstKey       (* just after '{': a key or '}' *)
  | EKey            (* after ',' in an object: a key *)
  | EColon          (* after a key *)
  | ENext           (* after a value in a container: ',' or the closer *)
  | EEnd (v : pyval). (* the document is complete *)

Definition put (v : pyval) (stack : list frame) : expect * list frame :=
  match stack with
  | [] => (EEnd v, [])
  | FList items_rev :: rest => (ENext, FList (v :: items_rev) :: rest)
  | FDict items key :: rest => (ENext, FDict (dict_set items key v) key :: rest)
  end.

Definition open_value (t : token) (stack : list frame)
  : option (expect * list frame) :=
  match t with
  | TString s => Some (put (PStr s) stack)
  | TWord w =>
      match word_value w with
      | Some v => Some (put v stack)
      | None => None
      end
  | TLBracket => Some (EFirstItem, FList [] :: stack)
  | TLBrace => Some (EFirstKey, FDict [] EmptyString :: stack)
  | _ => None
  end.

Definition set_key (k : string) (stack : list frame)
  : option (expect * list frame) :=
  match stack with
  | FDict items _ :: rest => Some (EColon, FDict items k :: rest)
  | _ => None
  end.

Definition close_list (stack : list frame) : option (expect * list frame) :=
  match stack with
  | FList items_rev :: rest => Some (put (PList (rev items_rev)) rest)
  | _ => None
  end.

Definition close_dict (stack : list frame) : option (expect * list frame) :=
  match stack with
  | FDict items _ :: rest => Some (put (PDict items) rest)
  | _ => None
  end.

Definition parse_step (e : expect) (t : token) (stack : list frame)
  : option (expect * list frame) :=
  match e, t with
  | EValue, _ => open_value t stack
  | EFirstItem, TRBracket => close_list stack
  | EFirstItem, _ => open_value t stack
  | EFirstKey, TRBrace => close_dict stack
  | EFirstKey, TString k => set_key k stack
  | EKey, TString k => set_key k stack
  | EColon, TColon => Some (EValue, stack)
  | ENext, TComma =>
      match stack with
      | FList _ :: _ => Some (EValue, stack)
      | FDict _ _ :: _ => Some (EKey, stack)
      | [] => None
      end
  | ENext, TRBracket => close_list stack
  | ENext, TRBrace => close_dict stack
  | _, _ => None
  end.

Fixpoint parse (toks : list token) (e : expect) (stack : list frame)
  : option pyval :=
  match toks with
  | [] => match e with EEnd v => Some v | _ => None end
  | t :: toks' =>
      match parse_step e t stack with
      | Some (e', stack') => parse toks' e' stack'
      | None => None
      end
  end.

Definition decode (s : string) : option pyval :=
  match lex s LTop [] with
  | Some toks => parse toks EValue []
  | None => None
  end.

Definition loads (s : string) : option (list (string * pyval)) :=
  match decode s with
  | Some (PDict d) => Some d
  | _ => None
  end.

End Json.

(* ===================================================================== *)
(** * Data of the configuration, the session store and the API *)
(* ===================================================================== *)

(** One entry of the [guards] mapping of config.yaml: [enabled] is the
    truth value of its [enabled] key, [guard_model] its [model] key. *)
Record GuardConfig : Type := mkGuardConfig {
  enabled : bool;
  guard_model : option string
}.

(** The parsed config.yaml, [_config] of backend/config.py. *)
Record Config : Type := mkConfig {
  guards : gmap string GuardConfig;
  guard_timeout_seconds : option Z;
  on_safety_timeout : option string
}.

(** A message record [{"role": ..., "content": ...}] is a [dict[str, str]]. *)
Abbreviation message := (gmap string string).

Definition mk_message (role content : string) : message :=
  <["content" := content]> (<["role" := role]> ∅).

(** A guard check function: [(user_message, model_response, model)] to a
    [GuardResult], observed through the thread pool. *)
Abbreviation guard_fn := (string -> string -> string -> outcome GuardResult).

Module Req.
Record ChatRequest : Type := mk {
  message : string;
  system_prompt : option string;
  session_id : option string;
  history : option (list (gmap string string));
  skip_guards : bool
}.
End Req.

Module Out.
Record GuardResultOut : Type := mk {
  name : string;
  verdict : string;
  reason : string;
  model : string
}.
End Out.

Module Resp.
Record ChatResponse : Type := mk {
  response : string;
  blocked : bool;
  guard_results : list Out.GuardResultOut;
  session_id : string;
  primary_model : string
}.
End Resp.

Definition DQ : string := String (ascii_of_N 34) EmptyString.

Coercion PStr : string >-> pyval.

(** [get_groq_model()] of backend/config.py, from the three values it
    reads: the environment variables MODEL_NAME and GROQ_MODEL ([None]
    when unset) and the [model] key of the [groq] section of config.yaml
    ([None] when the section or the key is missing; a text otherwise). *)
Module Env.
Definition get_groq_model (MODEL_NAME GROQ_MODEL config_model : option string) : string :=
  let out :=
    Py.or_str (Py.strip (Py.or_str (default "" MODEL_NAME) ""))
      (Py.or_str (Py.strip (Py.or_str (default "" GROQ_MODEL) ""))
         (Py.or_str (default "" config_model) "llama-3.3-70b-versatile")) in
  if Py.nonempty out then Py.strip out else "llama-3.3-70b-versatile".
End Env.

(** The dict returned by [health()] of backend/main.py; the dict
    [guard_models_available] keeps its keys in insertion order. *)
Module Health.
Record Report : Type := mk {
  status : string;
  groq_configured : bool;
  ollama_available : bool;
  groq_model : string;
  guards_config : gmap string GuardConfig;
  ollama_models : list string;
  guard_models_available : list (string * bool)
}.
End Health.

(** What [ollama.list()] gives: for each listed model its [model] and its
    [name] attribute ([None] for a missing one), or [None] when the call
    (or the import before it) raises. *)
Abbreviation ollama_listing := (option (list (option string * option string))).

(* ===================================================================== *)
(** * Concrete services and inputs, for the closed examples *)
(* ===================================================================== *)

(** config.yaml with the four guards enabled and the default policy. *)
Definition all_guards_on : Config :=
  mkConfig
    (list_to_map
       [("safety", mkGuardConfig true (Some "phi3"));
        ("topic", mkGuardConfig true (Some "phi3"));
        ("format", mkGuardConfig true (Some "llama3.2"));
        ("pii", mkGuardConfig true None)])
    None None.


(** A classifier that answers every prompt with [text]. *)
Definition ollama_says (text : string)
  : string -> string -> string -> outcome (option string) :=
  fun _ _ _ => Returns (Some text).

(** A generation service that answers every conversation with [text]. *)
Definition groq_says (text : string)
  : string -> list message -> outcome (option string) :=
  fun _ _ => Returns (Some text).

Definition slow_check : guard_fn := fun _ _ _ => Overruns.

Definition failing_check (msg : string) : guard_fn :=
  fun _ _ _ => Raises (Exception msg).

Definition passing_check (guard_name : string) : guard_fn :=
  fun _ _ _ => Returns (mkGuardResult guard_name "pass" "" "").

Definition eleven_exchanges : list (string * string) :=
  [("q1", "a1"); ("q2", "a2"); ("q3", "a3"); ("q4", "a4"); ("q5", "a5");
   ("q6", "a6"); ("q7", "a7"); ("q8", "a8"); ("q9", "a9"); ("q10", "a10");
   ("q11", "a11")].

(** Three checks that behave differently, and one guard the configuration
    does not enable. *)
Definition mixed_checks : list (string * guard_fn) :=
  [("safety", slow_check); ("audit", passing_check "audit");
   ("topic", failing_check "connection refused"); ("pii", passing_check "pii")].


Definition hello_request : Req.ChatRequest :=
  Req.mk "Hello" None (Some "s1") None false.

(** A store that already holds one exchange of another session. *)
Definition earlier_store : gmap string (list message) :=
  {[ "s0" := [mk_message "user" "q0"; mk_message "assistant" "a0"] ]}.

Definition blocked_hello_response : Resp.ChatResponse :=
  Resp.mk "This response was blocked by a safety check. (safety: unsafe)" true
    [Out.mk "safety" "block" "unsafe" "phi3"; Out.mk "topic" "block" "unsafe" "phi3";
     Out.mk "format" "flag" "unsafe" "llama3.2"; Out.mk "pii" "flag" "unsafe" "phi3"]
    "s1" "llama-3.3-70b-versatile".

Definition passed_hello_response : Resp.ChatResponse :=
  Resp.mk "Hi there, how can I help?" false
    [Out.mk "safety" "pass" "" "phi3"; Out.mk "topic" "pass" "" "phi3";
     Out.mk "format" "pass" "" "llama3.2"; Out.mk "pii" "pass" "" "phi3"]
    "s1" "llama-3.3-70b-versatile".

(** A classifier that refuses a call without a model name and answers
    "pass" otherwise. *)
Definition strict_ollama : string -> string -> string -> outcome (option string) :=
  fun model_ _ _ =>
    if Py.nonempty model_ then Returns (Some "pass")
    else Raises (Exception "model is required").

(** A classifier service that is down, and one that never answers in time. *)
Definition ollama_down : string -> string -> string -> outcome (option string) :=
  fun _ _ _ => Raises (Exception "connection refused").


(** A generation service that rejects the API key. *)
Definition groq_rejects_key : string -> list message -> outcome (option string) :=
  fun _ _ => Raises (Exception "Error code: 401 - Invalid API Key").

(** config.yaml without a [guards] section. *)
Definition no_guards : Config := mkConfig ∅ None None.

Definition unguarded_hello_request : Req.ChatRequest :=
  Req.mk "Hello" None (Some "s1") None true.

Definition hello_store : gmap string (list message) :=
  <["s1" := [mk_message "user" "Hello";
             mk_message "assistant" "Hi there, how can I help?"]]> earlier_store.

Section Engine.

(** [json.loads] on a text that starts with an opening brace: the decoded
    dict, or [None] for [JSONDecodeError]. *)
Variable json_loads : string -> option (list (string * pyval)).

(** [ollama.chat(model=..., messages=[system, user])], reduced to the
    content of the response message, if it has one. *)
Variable ollama_chat : string -> string -> string -> outcome (option string).

(** The Groq client call [client.chat.completions.create(model=...,
    messages=...)], reduced to the content of the first choice, if any; a
    missing API key is one of the ways it raises. *)
Variable groq_create : string -> list message -> outcome (option string).

(** The module globals read by the pipeline. *)
Variable _config : Config.
Variable groq_model : string.

(** The two [uuid.uuid4()] values a request may draw. *)
Variable uuid_first uuid_second : string.

(* --------------------------------------------------------------------- *)
(** ** backend/config.py *)
(* --------------------------------------------------------------------- *)

Definition get_groq_model : string := groq_model.

Definition is_guard_enabled (guard_name : string) : bool :=
  if negb (Py.nonempty guard_name) then false
  else match guards _config !! guard_name with
       | Some g => enabled g
       | None => false
       end.

Definition get_guard_model (guard_name : string) : string :=
  if negb (Py.nonempty guard_name) then "phi3"
  else
    let out :=
      match guards _config !! guard_name with
      | Some g => Py.or_str (default "" (guard_model g)) "phi3"
      | None => "phi3"
      end in
    Py.strip out.

Definition get_guard_timeout_seconds : Z :=
  match guard_timeout_seconds _config with
  | Some v => Z.max 10 (Z.min 300 v)
  | None => 45
  end.

Definition get_on_safety_timeout : string :=
  let v := Py.lower (Py.strip (Py.or_str (default "" (on_safety_timeout _config)) "flag")) in
  if String.eqb v "block" then "block" else "flag".

(* --------------------------------------------------------------------- *)
(** ** backend/guards/ollama_guard.py *)
(* --------------------------------------------------------------------- *)

Definition DEFAULT_VERDICT : string := "flag".
Definition DEFAULT_REASON : string := "Unclear response".

(** [_safe_str]: the stripped text of a [str], the empty string for
    [None] and for every other value. *)
Definition _safe_str (s : pyval) : string :=
  match s with
  | PStr s => Py.strip s
  | _ => ""
  end.

(** [v in ("pass", "flag", "block")] *)
Definition is_verdict_word (v : string) : bool :=
  String.eqb v "pass" || String.eqb v "flag" || String.eqb v "block".

(** [re.match(r"^(pass|flag|block)\s*:?\s*$", line, re.I)] *)
Definition after_verdict_word (line : string) : option string :=
  let l := Py.lower line in
  if Py.startswith l "pass" then Some (Py.drop 4 line)
  else if Py.startswith l "flag" then Some (Py.drop 4 line)
  else if Py.startswith l "block" then Some (Py.drop 5 line)
  else None.

Definition bare_verdict_line (line : string) : bool :=
  match after_verdict_word line with
  | Some rest =>
      let rest := Py.lstrip rest in
      let rest := match rest with
                  | String c rest' => if Ascii.eqb c ":" then rest' else rest
                  | EmptyString => rest
                  end in
      negb (Py.nonempty (Py.lstrip rest))
  | None => false
  end.

(** The [try] block of [_parse_verdict]: [Some] when it returns, [None]
    when control falls through to the fallback (no braces, a decoding
    error, or no verdict word in the decoded object). *)
Definition parse_json_verdict (raw : string) : option (string * string) :=
  let start := Py.find raw "{" in
  if negb (start =? -1) then
    let end_ := Py.rfind raw "}" + 1 in
    if end_ >? start then
      match json_loads (Py.slice raw start end_) with
      | Some obj =>
          let v := Py.lower (_safe_str (py_or (py_or (dict_get obj "verdict")
                                                     (dict_get obj "result")) "")) in
          if is_verdict_word v then
            let r := py_or (py_or (dict_get obj "reason")
                                  (dict_get obj "explanation")) "" in
            Some (v, Py.take 200 (_safe_str (py_str r)))
          else None
      | None => None
      end
    else None
  else None.

(** The [for line in lines] loop of the fallback, up to its [break]. *)
Fixpoint first_reason_line (lines : list string) : string :=
  match lines with
  | [] => ""
  | line :: rest =>
      let line := _safe_str line in
      if Py.nonempty line && negb (bare_verdict_line line)
      then Py.take 200 line
      else first_reason_line rest
  end.

Definition _parse_verdict (text : string) : string * string :=
  let raw := _safe_str text in
  let lines := Py.split raw LF in
  let first_line := Py.lower (_safe_str (hd "" lines)) in
  if is_verdict_word first_line then
    let rest := Py.strip (Py.join NL (tail lines)) in
    (first_line, if Py.nonempty rest then Py.take 200 rest else "")
  else
    match parse_json_verdict raw with
    | Some found => found
    | None =>
        let raw_lower := Py.lower raw in
        let verdict :=
          if Py.contains raw_lower "block" then "block"
          else if Py.contains raw_lower "flag" then "flag"
          else "pass" in
        let reason := first_reason_line lines in
        let reason :=
          if negb (Py.nonempty reason) && Py.nonempty raw
          then Py.take 200 raw else reason in
        (verdict, reason)
    end.

(** [call_ollama_guard]. The second [try] of the source guards a call that
    cannot raise here, so its handler has no counterpart. *)
Definition call_ollama_guard (guard_name system_prompt user_content model_ : string)
  : outcome GuardResult :=
  let guard_name := Py.or_str (_safe_str guard_name) "guard" in
  let model_ := Py.or_str (_safe_str model_) "phi3" in
  let system_prompt :=
    Py.or_str (_safe_str system_prompt) "Classify as pass, flag, or block." in
  let user_content := Py.or_str (_safe_str user_content) "(no content)" in
  match ollama_chat model_ system_prompt user_content with
  | Raises e =>
      Returns (mkGuardResult guard_name DEFAULT_VERDICT
                 ("Ollama error: " +:+ exn_str e) "")
  | Overruns => Overruns
  | Returns content =>
      let text := _safe_str (Py.or_str (default "" content) "") in
      let '(verdict_, reason_) := _parse_verdict text in
      let '(verdict_, reason_) :=
        if negb (is_verdict_word verdict_)
        then (DEFAULT_VERDICT, Py.or_str reason_ DEFAULT_REASON)
        else (verdict_, reason_) in
      Returns (mkGuardResult guard_name verdict_ (Py.or_str reason_ "") "")
  end.

(* --------------------------------------------------------------------- *)
(** ** backend/guards/prompts.py and the four guards *)
(* --------------------------------------------------------------------- *)

Definition GUARD_OUTPUT_RULES : string :=
  NL +:+
  "Output format: On the first line output exactly one word: pass, flag, or block (only when your instructions allow block)." +:+ NL +:+
  "When the situation is ambiguous or you are unsure, prefer pass or flag; use block only when clearly required by the rules above." +:+ NL +:+
  "Do not output anything before the verdict word. Optionally on the next line add a very short reason.".

Definition build_guard_prompt (instructions : string) : string :=
  Py.strip (Py.strip instructions +:+ NL +:+ NL +:+ Py.strip GUARD_OUTPUT_RULES).

Definition SAFETY_SYSTEM : string := build_guard_prompt (
  "You are a content safety classifier. Given the user message and the AI model's response, classify the response:" +:+ NL +:+
  "- pass: Safe, helpful, not harmful or toxic. When in doubt, use pass." +:+ NL +:+
  "- flag: Borderline (e.g. sensitive topic but handled carefully)." +:+ NL +:+
  "- block: Only if the response clearly contains harmful, toxic, unsafe, or clearly inappropriate content. If ambiguous, use flag instead of block.").

Definition TOPIC_SYSTEM : string := build_guard_prompt (
  "You are a topic relevance classifier. Given the user message and the AI model's response, decide if the response is appropriate." +:+ NL +:+
  "- pass: The response is appropriate. Includes: answering the question; replying to greetings (" +:+ DQ +:+ "Hi" +:+ DQ +:+ ", " +:+ DQ +:+ "Hey" +:+ DQ +:+ ", " +:+ DQ +:+ "Hello" +:+ DQ +:+ ") with a friendly greeting or offer to help; acknowledging the user; staying on subject. Greetings and small talk deserve a friendly reply — that is on-topic." +:+ NL +:+
  "- flag: Somewhat relevant but goes off on a tangent or adds a lot of unrelated content." +:+ NL +:+
  "- block: Only if the response clearly ignores the user (e.g. user asked about X and the model talks only about unrelated Y with no acknowledgment). Do NOT block polite responses to greetings or open-ended messages. When in doubt, use pass or flag.").

Definition FORMAT_SYSTEM : string := build_guard_prompt (
  "You are a response format checker. Classify the AI response:" +:+ NL +:+
  "- pass: Reasonable length and structure (readable paragraphs or clear sentences). Short replies (e.g. greetings) are fine. When in doubt, use pass." +:+ NL +:+
  "- flag: Clearly too long, too fragmented, or odd formatting. Do not use block; this guard only uses pass or flag.").

Definition PII_SYSTEM : string := build_guard_prompt (
  "You are a PII and sensitive data detector. Check if the AI model's response contains personal or sensitive information (e.g. email, phone, address, credentials, API keys)." +:+ NL +:+
  "- pass: No PII or sensitive data detected. Generic examples or placeholders (e.g. " +:+ DQ +:+ "user@example.com" +:+ DQ +:+ ") are pass. When in doubt, use pass." +:+ NL +:+
  "- flag: Possible real PII or sensitive data detected. Do not use block; this guard only uses pass or flag.").

(** [(s or "").strip() or "(empty)"] *)
Definition or_empty (s : string) : string :=
  Py.or_str (Py.strip (Py.or_str s "")) "(empty)".

Definition safety_guard (user_message model_response ollama_model : string)
  : outcome GuardResult :=
  let user_content :=
    "User message:" +:+ NL +:+ or_empty user_message +:+ NL +:+ NL +:+
    "Model response:" +:+ NL +:+ or_empty model_response in
  call_ollama_guard "safety" SAFETY_SYSTEM user_content ollama_model.

Definition topic_guard (user_message model_response ollama_model : string)
  : outcome GuardResult :=
  let user_content :=
    "User message:" +:+ NL +:+ or_empty user_message +:+ NL +:+ NL +:+
    "Model response:" +:+ NL +:+ or_empty model_response in
  call_ollama_guard "topic" TOPIC_SYSTEM user_content ollama_model.

Definition format_guard (user_message model_response ollama_model : string)
  : outcome GuardResult :=
  let user_content := "Model response to check:" +:+ NL +:+ or_empty model_response in
  r ← call_ollama_guard "format" FORMAT_SYSTEM user_content ollama_model;
  if String.eqb (verdict r) "block"
  then Returns (mkGuardResult (name r) "flag"
               (Py.or_str (reason r) "Format guard does not block") "")
  else Returns r.

Definition pii_guard (user_message model_response ollama_model : string)
  : outcome GuardResult :=
  let user_content := "Model response to check:" +:+ NL +:+ or_empty model_response in
  r ← call_ollama_guard "pii" PII_SYSTEM user_content ollama_model;
  if String.eqb (verdict r) "block"
  then Returns (mkGuardResult (name r) "flag"
               (Py.or_str (reason r) "PII guard does not block") "")
  else Returns r.

(* --------------------------------------------------------------------- *)
(** ** backend/guards/base.py: the runner *)
(* --------------------------------------------------------------------- *)

Definition SAFETY_GUARD_NAME : string := "safety".

(** The first loop of [run_guards]: the enabled guards, each with the model
    configured for it, in the order of [guard_fns]. *)
Fixpoint enabled_tasks (guard_fns : list (string * guard_fn))
  : list (string * guard_fn * string) :=
  match guard_fns with
  | [] => []
  | (task_name, fn) :: rest =>
      if negb (is_guard_enabled task_name) then enabled_tasks rest
      else (task_name, fn, get_guard_model task_name) :: enabled_tasks rest
  end.

Definition run_one (user_message model_response : string)
    (task_name : string) (fn : guard_fn) (model_ : string) : outcome GuardResult :=
  try_except
    (r ← fn user_message model_response model_;
     Returns (mkGuardResult (name r) (verdict r) (reason r) model_))
    (fun e =>
       Returns (mkGuardResult task_name "flag" ("Guard error: " +:+ exn_str e) model_)).

(** [future.result(timeout=timeout_sec)] on a submitted call: its value or
    its exception when it completed before the wait expired, [TimeoutError]
    otherwise. Whether it completed in time is part of the observed
    outcome; the clock itself is not modelled. *)
Definition future_result {A} (timeout : Z) (work : outcome A) : outcome A :=
  match work with
  | Overruns => Raises FuturesTimeoutError
  | completed => completed
  end.

(** The body of [for future in futures]. *)
Definition collect (timeout_sec : Z) (on_safety_timeout_ : string)
    (results : list (option GuardResult))
    (entry : outcome GuardResult * (string * nat * string))
  : outcome (list (option GuardResult)) :=
  let '(future, (task_name, idx, model_)) := entry in
  try_except
    (result ← future_result timeout_sec future;
     Returns (<[idx := Some result]> results))
    (fun e =>
       match e with
       | FuturesTimeoutError =>
           if String.eqb task_name SAFETY_GUARD_NAME
              && String.eqb on_safety_timeout_ "block"
           then Returns (<[idx := Some (mkGuardResult task_name "block"
                          "Safety check timed out; response not verified."
                          model_)]> results)
           else Returns (<[idx := Some (mkGuardResult task_name "flag" "Timeout"
                          model_)]> results)
       | _ =>
           Returns (<[idx := Some (mkGuardResult task_name "flag" (exn_str e)
                          model_)]> results)
       end).

(** A [for] loop that threads the variable it assigns. *)
Fixpoint for_each {A S} (items : list A) (body : S -> A -> outcome S) (s : S)
  : outcome S :=
  match items with
  | [] => Returns s
  | x :: rest => s' ← body s x; for_each rest body s'
  end.

Definition run_guards (user_message model_response : string)
    (guard_fns : list (string * guard_fn)) : outcome (list GuardResult) :=
  let user_message := Py.strip (Py.or_str user_message "") in
  let model_response := Py.strip (Py.or_str model_response "") in
  let tasks := enabled_tasks guard_fns in
  match tasks with
  | [] => Returns []
  | _ =>
      let timeout_sec := get_guard_timeout_seconds in
      let on_safety_timeout_ := get_on_safety_timeout in
      let results : list (option GuardResult) := replicate (length tasks) None in
      let futures :=
        map (fun '((task_name, fn, model_), i) =>
               (run_one user_message model_response task_name fn model_,
                (task_name, i, model_)))
            (zip tasks (seq 0 (length tasks))) in
      results ← for_each futures (collect timeout_sec on_safety_timeout_) results;
      Returns (omap (M:=list) id results)
  end.

(* --------------------------------------------------------------------- *)
(** ** backend/session_store.py *)
(* --------------------------------------------------------------------- *)

Definition MAX_HISTORY_MESSAGES : nat := 20.

(** [_sessions[session_id]] on the [defaultdict(list)]: a missing key is
    created with the empty list. *)
Definition sessions_getitem (session_id : string)
    (_sessions : gmap string (list message))
  : list message * gmap string (list message) :=
  match _sessions !! session_id with
  | Some messages => (messages, _sessions)
  | None => ([], <[session_id := []]> _sessions)
  end.

(** [append_exchange]: the two appends mutate the list held by the store;
    the trim rebinds the key to the last [MAX_HISTORY_MESSAGES] items. *)
Definition append_exchange (session_id user_message assistant_message : string)
    (_sessions : gmap string (list message)) : gmap string (list message) :=
  let '(messages, _sessions) := sessions_getitem session_id _sessions in
  let messages := messages ++ [mk_message "user" user_message] in
  let messages := messages ++ [mk_message "assistant" assistant_message] in
  let _sessions := <[session_id := messages]> _sessions in
  if (MAX_HISTORY_MESSAGES <? length messages)%nat
  then <[session_id := drop (length messages - MAX_HISTORY_MESSAGES) messages]> _sessions
  else _sessions.

(** [get_history]: a copy of the session's list. *)
Definition get_history (session_id : string)
    (_sessions : gmap string (list message))
  : list message * gmap string (list message) :=
  sessions_getitem session_id _sessions.

(* --------------------------------------------------------------------- *)
(** ** backend/groq_client.py *)
(* --------------------------------------------------------------------- *)

Definition GROQ_DEFAULT_SYSTEM : string :=
  "You are a helpful assistant. Answer the user's question clearly and concisely.".

(** The [for h in history] loop of [chat_completion]. *)
Fixpoint history_messages (history : list (gmap string string)) : list message :=
  match history with
  | [] => []
  | h :: rest =>
      let role := default "user" (h !! "role") in
      if negb (String.eqb role "user" || String.eqb role "assistant"
               || String.eqb role "system")
      then history_messages rest
      else
        let content := Py.or_str (default "" (h !! "content")) "" in
        if Py.nonempty content
        then mk_message role content :: history_messages rest
        else history_messages rest
  end.

Definition chat_completion (user_message system_prompt : string)
    (history : list (gmap string string)) : outcome string :=
  let model_ := get_groq_model in
  let messages :=
    if Py.nonempty system_prompt then [mk_message "system" system_prompt] else [] in
  let messages := messages ++ history_messages history in
  let user_message := Py.strip (Py.or_str user_message "") in
  let messages := messages ++ [mk_message "user" (Py.or_str user_message "(empty)")] in
  content ← groq_create model_ messages;
  Returns (Py.strip (Py.or_str (default "" content) "")).

(* --------------------------------------------------------------------- *)
(** ** backend/main.py *)
(* --------------------------------------------------------------------- *)

Definition BLOCKED_MESSAGE : string := "This response was blocked by a safety check.".
Definition MAX_MESSAGE_LENGTH : Z := 32000.

Definition GUARD_FNS : list (string * guard_fn) :=
  [("safety", safety_guard); ("topic", topic_guard);
   ("format", format_guard); ("pii", pii_guard)].

Definition _normalize_response (text : string) : string := Py.strip text.

Definition prefixes : list string :=
  ["pass."; "pass:"; "flag."; "flag:"; "block."; "block:"; "reason:"; "reason."].

(** The [for p in prefixes] loop: the first prefix [lowered] starts with. *)
Fixpoint first_prefix (lowered : string) (ps : list string) : option string :=
  match ps with
  | [] => None
  | p :: rest => if Py.startswith lowered p then Some p else first_prefix lowered rest
  end.

(** The [while s] loop of [_normalize_guard_reason]; every round removes at
    least five characters, so [len(s)] rounds are enough
    ([strip_prefixes_exits]). *)
Fixpoint strip_prefixes (rounds : nat) (s : string) : string :=
  match rounds with
  | O => s
  | S rounds' =>
      if Py.nonempty s then
        match first_prefix (Py.lower s) prefixes with
        | Some p => strip_prefixes rounds' (Py.strip (Py.drop (Py.len p) s))
        | None => s
        end
      else s
  end.

Definition _normalize_guard_reason (reason_ : string) : string :=
  if negb (Py.nonempty reason_) then ""
  else
    let s := Py.strip reason_ in
    let s := strip_prefixes (Py.len s) s in
    if (120 <? Py.len s)%nat then Py.take 120 s else s.

(** One round of the loop of [_guard_results_out]. Its operations are
    string operations on the four [str] fields, none of which raises, so
    the [except] branch has no counterpart. *)
Definition guard_result_out (r : GuardResult) : Out.GuardResultOut :=
  let raw_reason := Py.take 500 (Py.strip (Py.or_str (reason r) "")) in
  let reason_ := _normalize_guard_reason raw_reason in
  Out.mk (Py.strip (Py.or_str (name r) "guard"))
         (Py.or_str (Py.strip (Py.or_str (verdict r) "flag")) "flag")
         reason_
         (Py.take 100 (Py.strip (Py.or_str (model r) ""))).

Definition _guard_results_out (results : list GuardResult) : list Out.GuardResultOut :=
  map guard_result_out results.

(** The text of the blocked response. *)
Definition blocked_text (guard_results : list GuardResult) : string :=
  match get_blocking_guard guard_results with
  | Some blocking =>
      if Py.nonempty (Py.strip (Py.or_str (reason blocking) ""))
      then BLOCKED_MESSAGE +:+ " (" +:+ name blocking +:+ ": " +:+ reason blocking +:+ ")"
      else BLOCKED_MESSAGE
  | None => BLOCKED_MESSAGE
  end.

(** [chat]: the request handler, with the store it leaves behind. *)
Definition chat (req : Req.ChatRequest) (_sessions : gmap string (list message))
  : outcome Resp.ChatResponse * gmap string (list message) :=
  let message_ := Py.strip (Py.or_str (Req.message req) "") in
  if negb (Py.nonempty message_)
  then (Raises (HTTPException 400 "message is required"), _sessions)
  else if MAX_MESSAGE_LENGTH <? Z.of_nat (Py.len message_)
  then (Raises (HTTPException 400 "message too long (max 32000 characters)"), _sessions)
  else
    let session_id :=
      Py.or_str (Py.strip (Py.or_str (default "" (Req.session_id req)) uuid_first))
                uuid_second in
    let '(history, _sessions) :=
      match Req.history req with
      | Some h => (h, _sessions)
      | None => get_history session_id _sessions
      end in
    let system :=
      Py.or_str (Py.strip (Py.or_str (Py.or_str (default "" (Req.system_prompt req))
                                                 GROQ_DEFAULT_SYSTEM) ""))
                GROQ_DEFAULT_SYSTEM in
    match chat_completion message_ system history with
    | Raises e =>
        let err_msg := Py.lower (exn_str e) in
        if Py.contains err_msg "401" || Py.contains err_msg "invalid api key"
           || Py.contains err_msg "expired_api_key"
        then (Raises (HTTPException 401
                "Invalid or expired Groq API key. Get a new key at https://console.groq.com/keys and set GROQ_API_KEY in your .env file, then restart the app."),
              _sessions)
        else (Raises (HTTPException 502 (exn_str e)), _sessions)
    | Overruns => (Overruns, _sessions)
    | Returns raw_response =>
        let raw_response := _normalize_response raw_response in
        let primary_model := get_groq_model in
        if Req.skip_guards req then
          let _sessions := append_exchange session_id message_ raw_response _sessions in
          (Returns (Resp.mk raw_response false [] session_id primary_model), _sessions)
        else
          match try_except (run_guards message_ raw_response GUARD_FNS)
                  (fun e => Returns [mkGuardResult "pipeline" "flag"
                                       ("Guards error: " +:+ exn_str e) ""]) with
          | Raises e => (Raises e, _sessions)
          | Overruns => (Overruns, _sessions)
          | Returns guard_results =>
              if any_block guard_results then
                (Returns (Resp.mk (blocked_text guard_results) true
                            (_guard_results_out guard_results)
                            session_id primary_model),
                 _sessions)
              else
                let _sessions :=
                  append_exchange session_id message_ raw_response _sessions in
                (Returns (Resp.mk raw_response false
                            (_guard_results_out guard_results)
                            session_id primary_model),
                 _sessions)
          end
    end.

(* --------------------------------------------------------------------- *)
(** ** Reference definitions the properties are stated against *)
(* --------------------------------------------------------------------- *)

(** [w] occurs in [s], case-insensitively. *)
Definition occurs (w s : string) : Prop :=
  exists pre post, Py.lower s = pre +:+ w +:+ post.


(** The substring rule: "block" before "flag" before "pass". *)
Definition substring_verdict (raw : string) : string :=
  if Py.contains (Py.lower raw) "block" then "block"
  else if Py.contains (Py.lower raw) "flag" then "flag"
  else "pass".


(** The result a task's slot ends with, by what its check did: returned,
    raised, or overran the wait. *)
Definition task_slot (user_message model_response : string)
    (task : string * guard_fn * string) : GuardResult :=
  let '(task_name, fn, model_) := task in
  match fn user_message model_response model_ with
  | Returns r => mkGuardResult (name r) (verdict r) (reason r) model_
  | Raises e => mkGuardResult task_name "flag" ("Guard error: " +:+ exn_str e) model_
  | Overruns =>
      if String.eqb task_name "safety" && String.eqb get_on_safety_timeout "block"
      then mkGuardResult task_name "block"
             "Safety check timed out; response not verified." model_
      else mkGuardResult task_name "flag" "Timeout" model_
  end.

(** A sequence of [append_exchange] calls, oldest first. *)
Definition run_appends (calls : list (string * string * string))
    (_sessions : gmap string (list message)) : gmap string (list message) :=
  foldl (fun st '(session_id, user_message, assistant_message) =>
           append_exchange session_id user_message assistant_message st)
        _sessions calls.

(** Every message the calls appended to one session, in insertion order. *)
Definition appended (session_id : string) (calls : list (string * string * string))
  : list message :=
  flat_map (fun '(sid, user_message, assistant_message) =>
              if String.eqb sid session_id
              then [mk_message "user" user_message;
                    mk_message "assistant" assistant_message]
              else []) calls.

(** The [n] most recent items of a list. *)
Definition most_recent {A} (n : nat) (l : list A) : list A :=
  drop (length l - n) l.

(** A text of whitespace only (the empty text included). *)
Definition blank (s : string) : Prop := Py.strip s = "".

(** The parts of a request as [chat] reads them: the trimmed message, the
    session id (the request's, trimmed, or a fresh one), the system prompt
    (the request's, trimmed, or the default). *)
Definition request_message (req : Req.ChatRequest) : string :=
  Py.strip (Py.or_str (Req.message req) "").

Definition request_session_id (req : Req.ChatRequest) : string :=
  Py.or_str (Py.strip (Py.or_str (default "" (Req.session_id req)) uuid_first))
            uuid_second.

Definition request_system (req : Req.ChatRequest) : string :=
  Py.or_str (Py.strip (Py.or_str (Py.or_str (default "" (Req.system_prompt req))
                                             GROQ_DEFAULT_SYSTEM) ""))
            GROQ_DEFAULT_SYSTEM.

(** The history [chat] hands to the generation call, with the store as the
    lookup leaves it. *)
Definition request_history (req : Req.ChatRequest)
    (_sessions : gmap string (list message))
  : list (gmap string string) * gmap string (list message) :=
  match Req.history req with
  | Some h => (h, _sessions)
  | None => get_history (request_session_id req) _sessions
  end.

(** The conversation [chat_completion] sends to the generation service. *)
Definition conversation (user_message system_prompt : string)
    (history : list (gmap string string)) : list message :=
  ((if Py.nonempty system_prompt then [mk_message "system" system_prompt] else [])
   ++ history_messages history)
  ++ [mk_message "user" (Py.or_str (Py.strip (Py.or_str user_message "")) "(empty)")].

(** The error [chat] raises when the generation call raised [e]. *)
Definition generation_error (e : exn) : exn :=
  let err_msg := Py.lower (exn_str e) in
  if Py.contains err_msg "401" || Py.contains err_msg "invalid api key"
     || Py.contains err_msg "expired_api_key"
  then HTTPException 401
         "Invalid or expired Groq API key. Get a new key at https://console.groq.com/keys and set GROQ_API_KEY in your .env file, then restart the app."
  else HTTPException 502 (exn_str e).

(** The exchanges the calls appended to one session, oldest first. *)
Definition exchanges_of (session_id : string) (calls : list (string * string * string))
  : list (string * string) :=
  flat_map (fun '(sid, user_message, assistant_message) =>
              if String.eqb sid session_id then [(user_message, assistant_message)] else [])
           calls.

(** The two messages of an exchange. *)
Definition exchange_messages (exchange : string * string) : list message :=
  [mk_message "user" exchange.1; mk_message "assistant" exchange.2].

(** A message the generation service accepts: one of the three roles and
    a content that is not empty. *)
Definition sendable (m : message) : Prop :=
  exists role content,
    m = mk_message role content /\
    (role = "user" \/ role = "assistant" \/ role = "system") /\
    content <> "".

(* --------------------------------------------------------------------- *)
(** ** backend/main.py: the health report *)
(* --------------------------------------------------------------------- *)

Definition _ollama_models (listing : ollama_listing) : list string :=
  match listing with
  | None => []
  | Some models =>
      omap (M:=list)
        (fun m : option string * option string =>
           let name_ := Py.or_str (default "" m.1) (default "" m.2) in
           if Py.nonempty name_ then Some name_ else None)
        models
  end.

(** [any(model in m or m.startswith(model.split(":")[0]) for m in
    ollama_models)] *)
Definition model_listed (model_ : string) (ollama_models : list string) : bool :=
  existsb (fun m => Py.contains m model_
                    || Py.startswith m (hd "" (Py.split model_ ":"%char)))
          ollama_models.

(** [health()]; [first_list] and [second_list] are its two calls of
    [ollama.list()], the second one inside [_ollama_models]. *)
Definition health (GROQ_API_KEY : option string) (first_list second_list : ollama_listing)
  : Health.Report :=
  let groq_ok := Py.nonempty (default "" GROQ_API_KEY) in
  let '(ollama_ok, ollama_models, guard_models_status) :=
    match first_list with
    | None => (false, [], [])
    | Some _ =>
        let ollama_models := _ollama_models second_list in
        (true, ollama_models,
         omap (M:=list)
           (fun name_ =>
              if is_guard_enabled name_
              then Some (name_, model_listed (get_guard_model name_) ollama_models)
              else None)
           ["safety"; "topic"; "format"; "pii"])
    end in
  Health.mk (if groq_ok && ollama_ok then "ok" else "degraded")
            groq_ok ollama_ok get_groq_model (guards _config)
            ollama_models guard_models_status.

(** A text as the classifier is given it: not empty and trimmed. *)
Definition clean (s : string) : Prop := s <> "" /\ Py.strip s = s.

(* ===================================================================== *)
(** * Properties *)
(* ===================================================================== *)

(** ** Strings *)

Lemma take_len n s : (Py.len (Py.take n s) <= n)%nat.
Proof.
  unfold Py.len.
  revert s; induction n as [|n IH]; intros [|c s]; simpl; try lia.
  specialize (IH s). lia.
Qed.

Lemma drop_len n s : Py.len (Py.drop n s) = (Py.len s - n)%nat.
Proof.
  unfold Py.len.
  revert s; induction n as [|n IH]; intros [|c s]; simpl; try lia. apply IH.
Qed.

Lemma lower_len s : Py.len (Py.lower s) = Py.len s.
Proof. unfold Py.len. induction s as [|c s IH]; simpl; congruence. Qed.

Lemma lstrip_len s : (Py.len (Py.lstrip s) <= Py.len s)%nat.
Proof.
  unfold Py.len. induction s as [|c s IH]; simpl; [lia|].
  destruct (Py.is_space c); simpl; lia.
Qed.

Lemma rstrip_len s : (Py.len (Py.rstrip s) <= Py.len s)%nat.
Proof.
  unfold Py.len. induction s as [|c s IH]; simpl; [lia|].
  destruct (Py.rstrip s); [destruct (Py.is_space c)|]; simpl in *; lia.
Qed.

Lemma strip_len s : (Py.len (Py.strip s) <= Py.len s)%nat.
Proof.
  unfold Py.strip. pose proof (rstrip_len (Py.lstrip s)). pose proof (lstrip_len s). lia.
Qed.

Lemma startswith_len s p : Py.startswith s p = true -> (Py.len p <= Py.len s)%nat.
Proof.
  unfold Py.len. revert s; induction p as [|a p IH]; intros [|b s]; simpl;
    try lia; try discriminate.
  destruct (Ascii.eqb a b); [|discriminate]. intros H. apply IH in H. lia.
Qed.

Arguments Py.take : simpl never.
Arguments Py.drop : simpl never.

Lemma is_verdict_word_cases v :
  is_verdict_word v = true -> v = "pass" \/ v = "flag" \/ v = "block".
Proof.
  unfold is_verdict_word. intros H.
  apply orb_true_iff in H as [H|H]; [apply orb_true_iff in H as [H|H]|];
    apply String.eqb_eq in H; auto.
Qed.

Lemma append_cons c a b : String c a +:+ b = String c (a +:+ b).
Proof. reflexivity. Qed.

Lemma append_nil b : EmptyString +:+ b = b.
Proof. reflexivity. Qed.

Lemma startswith_app s p : Py.startswith s p = true <-> exists post, s = p +:+ post.
Proof.
  revert s; induction p as [|a p IH]; intros s; simpl.
  - split; [intros _; by exists s | done].
  - destruct s as [|b s].
    + split; [done | intros [post H]; rewrite append_cons in H; discriminate].
    + destruct (Ascii.eqb_spec a b) as [->|Hne].
      * rewrite IH. split; intros [post H]; exists post;
          rewrite append_cons in *; congruence.
      * split; [done | intros [post H]; rewrite append_cons in H; congruence].
Qed.

(** [p in s] holds exactly when [s] is some text, then [p], then some text. *)
Lemma contains_app s p :
  Py.contains s p = true <-> exists pre post, s = pre +:+ p +:+ post.
Proof.
  induction s as [|c s IH].
  - simpl. rewrite orb_false_r, startswith_app. split.
    + intros [post H]. by exists EmptyString, post.
    + intros (pre & post & H). destruct pre as [|c pre];
        [by exists post | rewrite append_cons in H; discriminate].
  - simpl. rewrite orb_true_iff, startswith_app, IH. split.
    + intros [[post H]|(pre & post & H)].
      * by exists EmptyString, post.
      * exists (String c pre), post. rewrite append_cons. by rewrite H.
    + intros (pre & post & H). destruct pre as [|c' pre].
      * left. by exists post.
      * right. exists pre, post. rewrite append_cons in H. congruence.
Qed.

(** ** The verdict normalizer *)

Lemma parse_json_verdict_some raw v r :
  parse_json_verdict raw = Some (v, r) ->
  is_verdict_word v = true /\ (Py.len r <= 200)%nat.
Proof.
  unfold parse_json_verdict.
  destruct (negb (Py.find raw "{" =? -1)); [|done].
  destruct (Py.rfind raw "}" + 1 >? Py.find raw "{"); [|done].
  destruct (json_loads _) as [obj|]; [|done].
  destruct (is_verdict_word _) eqn:Hv; [|done].
  intros [= <- <-]. split; [done | apply take_len].
Qed.

Lemma first_reason_line_len lines : (Py.len (first_reason_line lines) <= 200)%nat.
Proof.
  induction lines as [|line rest IH]; simpl; [lia|].
  destruct (_ && _); [apply take_len | done].
Qed.

Lemma substring_verdict_word raw : is_verdict_word (substring_verdict raw) = true.
Proof. unfold substring_verdict. by repeat case_match. Qed.

(** The verdict is a verdict word and the reason has at most 200
    characters, on each of the three ways out of [_parse_verdict]. *)
Lemma parse_verdict_word_len (text : string) :
  is_verdict_word (_parse_verdict text).1 = true /\
  (Py.len (_parse_verdict text).2 <= 200)%nat.
Proof.
  unfold _parse_verdict.
  destruct (is_verdict_word (Py.lower (_safe_str (hd "" _)))) eqn:Hfirst.
  - cbn [fst snd]. split; [done|].
    destruct (Py.nonempty _); [apply take_len | simpl; lia].
  - destruct (parse_json_verdict _) as [[v r]|] eqn:Hjson.
    + by apply parse_json_verdict_some in Hjson.
    + cbn [fst snd]. split.
      * apply (substring_verdict_word (_safe_str text)).
      * destruct (_ && _); [apply take_len | apply first_reason_line_len].
Qed.


(** ** Aggregation *)

Lemma verdict_is_block_iff r : verdict_is_block r = true <-> verdict r = "block".
Proof. apply String.eqb_eq. Qed.

(** C1. Aggregation blocks exactly when some result has verdict block; the
    blocking result is the first result with verdict block, in input
    order, and there is none when no result has it; results that all have
    verdict pass or flag never block. *)
Theorem any_block_first_block (results : list GuardResult) :
  (any_block results = true <-> exists r, r ∈ results /\ verdict r = "block") /\
  match get_blocking_guard results with
  | Some r =>
      exists before after,
        results = before ++ r :: after /\ verdict r = "block" /\
        Forall (fun x => verdict x <> "block") before
  | None => Forall (fun x => verdict x <> "block") results
  end /\
  (is_Some (get_blocking_guard results) <-> any_block results = true) /\
  (Forall (fun r => verdict r = "pass" \/ verdict r = "flag") results ->
   any_block results = false /\ get_blocking_guard results = None).
Proof.
  induction results as [|r rest (IHany & IHget & IHsome & IHnone)]; simpl.
  - split; [|split; [|split]].
    + split; [done|]. intros (r & Hin & _). by apply elem_of_nil in Hin.
    + constructor.
    + split; [by intros [? ?] | done].
    + done.
  - destruct (verdict_is_block r) eqn:Hr.
    + apply verdict_is_block_iff in Hr. split; [|split; [|split]].
      * split; [|done]. intros _. exists r. split; [left | done].
      * exists [], rest. by repeat split.
      * split; [done | by eexists].
      * intros Hall. apply Forall_cons_1 in Hall as [[H|H] _]; congruence.
    + assert (verdict r <> "block") as Hne
        by (intros H; apply verdict_is_block_iff in H; congruence).
      split; [|split; [|split]].
      * rewrite IHany. split.
        -- intros (x & Hin & Hx). exists x. split; [by right | done].
        -- intros (x & Hin & Hx). apply elem_of_cons in Hin as [->|Hin]; [done|].
           by exists x.
      * destruct (get_blocking_guard rest) as [b|].
        -- destruct IHget as (before & after & -> & Hb & Hbefore).
           exists (r :: before), after. repeat split; [done|]. by constructor.
        -- by constructor.
      * done.
      * intros Hall. apply Forall_cons_1 in Hall as [_ Hall]. by apply IHnone.
Qed.

(** ** The runner *)

Lemma run_one_task_slot timeout um mr task_name fn model_ :
  future_result timeout (run_one um mr task_name fn model_)
  = match fn um mr model_ with
    | Overruns => Raises FuturesTimeoutError
    | _ => Returns (task_slot um mr (task_name, fn, model_))
    end.
Proof. unfold run_one, task_slot. by destruct (fn um mr model_). Qed.

Lemma collect_task_slot timeout results um mr task_name fn model_ idx :
  collect timeout get_on_safety_timeout results
    (run_one um mr task_name fn model_, (task_name, idx, model_))
  = Returns (<[idx := Some (task_slot um mr (task_name, fn, model_))]> results).
Proof.
  unfold collect. rewrite run_one_task_slot. unfold task_slot, SAFETY_GUARD_NAME.
  destruct (fn um mr model_); simpl; [done | done |].
  by destruct (_ && _).
Qed.

(** The loop over the futures fills the slots [k], [k+1], ... in turn and
    leaves the slots before [k] as they were. *)
Lemma for_each_collect timeout um mr tasks :
  forall k (results : list (option GuardResult)),
  length results = (k + length tasks)%nat ->
  for_each
    (map (fun '((task_name, fn, model_), i) =>
            (run_one um mr task_name fn model_, (task_name, i, model_)))
         (zip tasks (seq k (length tasks))))
    (collect timeout get_on_safety_timeout) results
  = Returns (take k results ++ map (fun t => Some (task_slot um mr t)) tasks).
Proof.
  induction tasks as [|[[task_name fn] model_] tasks IH]; intros k results Hlen.
  - simpl in *. rewrite app_nil_r, take_ge by lia. done.
  - simpl in Hlen. cbn [length seq zip zip_with map for_each].
    rewrite collect_task_slot. cbn [mbind outcome_bind].
    rewrite (IH (S k)) by (rewrite length_insert; lia).
    f_equal. erewrite take_S_r by (apply list_lookup_insert_eq; lia).
    rewrite take_insert_ge by lia. by rewrite <- app_assoc.
Qed.

Lemma lookup_map {A B} (f : A -> B) (l : list A) (i : nat) :
  map f l !! i = f <$> (l !! i).
Proof. revert i; induction l as [|x l IH]; intros [|i]; simpl; auto. Qed.

Lemma omap_id_somes {A B} (f : A -> B) (l : list A) :
  omap (M:=list) id (map (fun t => Some (f t)) l) = map f l.
Proof. induction l as [|x l IH]; [done|]. simpl. f_equal. apply IH. Qed.

(** The runner returns, and what it returns is the list of the slots of
    the enabled tasks, in their order. *)
Lemma run_guards_slots um mr guard_fns :
  run_guards um mr guard_fns
  = Returns (map (task_slot (Py.strip um) (Py.strip mr)) (enabled_tasks guard_fns)).
Proof.
  unfold run_guards.
  assert (forall s, Py.or_str s "" = s) as Hor by (by intros []).
  rewrite !Hor.
  destruct (enabled_tasks guard_fns) as [|t tasks] eqn:Htasks; [done|].
  rewrite (for_each_collect _ _ _ (t :: tasks) 0) by (by rewrite length_replicate).
  rewrite take_0. cbn [mbind outcome_bind app]. by rewrite omap_id_somes.
Qed.

Lemma slot_of_task um mr guard_fns i task :
  enabled_tasks guard_fns !! i = Some task ->
  map (task_slot (Py.strip um) (Py.strip mr)) (enabled_tasks guard_fns) !! i
  = Some (task_slot (Py.strip um) (Py.strip mr) task).
Proof. intros Hi. by rewrite lookup_map, Hi. Qed.

(** C6. With no task to run the runner returns the empty sequence;
    otherwise it returns one result per task, as many results as tasks and
    in the order of the tasks: the result at index [i] is the one of the
    task at index [i] (for a check that returned, its name, verdict and
    reason with the task's model), also when checks raise or overrun the
    wait. *)
Theorem run_guards_one_result_per_task (user_message model_response : string)
    (guard_fns : list (string * guard_fn)) :
  exists results,
    run_guards user_message model_response guard_fns = Returns results /\
    (enabled_tasks guard_fns = [] -> results = []) /\
    length results = length (enabled_tasks guard_fns) /\
    (forall i task_name fn model_,
        enabled_tasks guard_fns !! i = Some (task_name, fn, model_) ->
        exists r,
          results !! i = Some r /\ model r = model_ /\
          r = task_slot (Py.strip user_message) (Py.strip model_response)
                (task_name, fn, model_)) /\
    (forall i, enabled_tasks guard_fns !! i = None -> results !! i = None) /\
    (forall i task_name fn model_ r0,
        enabled_tasks guard_fns !! i = Some (task_name, fn, model_) ->
        fn (Py.strip user_message) (Py.strip model_response) model_ = Returns r0 ->
        results !! i = Some (mkGuardResult (name r0) (verdict r0) (reason r0) model_)).
Proof.
  eexists. split; [apply run_guards_slots|].
  split; [by intros ->|]. split; [by rewrite length_map|]. split; [|split].
  - intros i task_name fn model_ Hi. eexists. split; [|split; [|reflexivity]].
    + rewrite lookup_map, Hi. done.
    + unfold task_slot. by repeat case_match.
  - intros i Hi. by rewrite lookup_map, Hi.
  - intros i task_name fn model_ r0 Hi Hfn.
    rewrite (slot_of_task _ _ _ _ _ Hi). unfold task_slot. by rewrite Hfn.
Qed.



(** C7. A check that raises leaves in its slot a flag result whose reason
    is "Guard error: " followed by the error text; the runner itself
    returns for every input, so no exception of a check leaves it. At the
    guard boundary a classifier call that raises gives a flag result whose
    reason is "Ollama error: " followed by the error text. *)
Theorem task_errors_become_flags (user_message model_response : string)
    (guard_fns : list (string * guard_fn)) :
  (exists results,
      run_guards user_message model_response guard_fns = Returns results /\
      forall i task_name fn model_ e,
        enabled_tasks guard_fns !! i = Some (task_name, fn, model_) ->
        fn (Py.strip user_message) (Py.strip model_response) model_ = Raises e ->
        results !! i
        = Some (mkGuardResult task_name "flag" ("Guard error: " +:+ exn_str e) model_)) /\
  (forall guard_name system_prompt user_content model_ e,
      ollama_chat (Py.or_str (Py.strip model_) "phi3")
        (Py.or_str (Py.strip system_prompt) "Classify as pass, flag, or block.")
        (Py.or_str (Py.strip user_content) "(no content)") = Raises e ->
      call_ollama_guard guard_name system_prompt user_content model_
      = Returns (mkGuardResult (Py.or_str (Py.strip guard_name) "guard") "flag"
                   ("Ollama error: " +:+ exn_str e) "")).
Proof.
  split.
  - eexists. split; [apply run_guards_slots|].
    intros i task_name fn model_ e Hi Hfn.
    rewrite (slot_of_task _ _ _ _ _ Hi). unfold task_slot. by rewrite Hfn.
  - intros guard_name system_prompt user_content model_ e Hchat.
    unfold call_ollama_guard. cbn [_safe_str]. by rewrite Hchat.
Qed.

(** ** The guard boundary *)

Lemma no_block_any_block results :
  Forall (fun r => verdict r <> "block") results ->
  any_block results = false /\ get_blocking_guard results = None.
Proof.
  induction 1 as [|r rest Hr _ IH]; [done|]. simpl.
  destruct (verdict_is_block r) eqn:Hb; [|done].
  by apply verdict_is_block_iff in Hb.
Qed.

(** What [call_ollama_guard] can do: it never raises; when the classifier
    answers, it returns a result with a verdict word and a reason of at
    most 200 characters. *)
Lemma call_ollama_guard_result guard_name system_prompt user_content model_ :
  match call_ollama_guard guard_name system_prompt user_content model_ with
  | Returns r =>
      is_verdict_word (verdict r) = true /\
      name r = Py.or_str (Py.strip guard_name) "guard" /\
      ((Py.len (reason r) <= 200)%nat \/
       exists e, verdict r = "flag" /\ reason r = "Ollama error: " +:+ exn_str e)
  | Raises _ => False
  | Overruns =>
      ollama_chat (Py.or_str (Py.strip model_) "phi3")
        (Py.or_str (Py.strip system_prompt) "Classify as pass, flag, or block.")
        (Py.or_str (Py.strip user_content) "(no content)") = Overruns
  end.
Proof.
  unfold call_ollama_guard. cbn [_safe_str].
  destruct (ollama_chat _ _ _) as [content|e|]; [| |done].
  - destruct (parse_verdict_word_len
                (Py.strip (Py.or_str (default "" content) ""))) as [Hword Hr].
    destruct (_parse_verdict _) as [v r]. cbn [fst snd] in Hword, Hr.
    rewrite Hword. cbn [negb verdict name reason].
    split; [done|]. split; [done|]. left.
    by destruct r.
  - cbn [verdict name reason]. split; [done|]. split; [done|]. right. by exists e.
Qed.


(** A guard that turns block into flag returns pass or flag, or overruns;
    it never raises. *)
Lemma ceiling_guard_result guard_name system_prompt user_content model_ fallback :
  match
    r ← call_ollama_guard guard_name system_prompt user_content model_;
    if String.eqb (verdict r) "block"
    then Returns (mkGuardResult (name r) "flag" (Py.or_str (reason r) fallback) "")
    else Returns r
  with
  | Returns r => verdict r = "pass" \/ verdict r = "flag"
  | Raises _ => False
  | Overruns => True
  end.
Proof.
  pose proof (call_ollama_guard_result guard_name system_prompt user_content model_) as H.
  destruct (call_ollama_guard _ _ _ _) as [r|e|]; cbn [mbind outcome_bind]; [|done|done].
  destruct H as (Hword & _).
  destruct (String.eqb_spec (verdict r) "block") as [Hb|Hb]; [by right|].
  apply is_verdict_word_cases in Hword as [?|[?|?]]; auto. done.
Qed.

Lemma format_guard_result um mr m :
  match format_guard um mr m with
  | Returns r => verdict r = "pass" \/ verdict r = "flag"
  | Raises _ => False
  | Overruns => True
  end.
Proof. apply ceiling_guard_result. Qed.

Lemma pii_guard_result um mr m :
  match pii_guard um mr m with
  | Returns r => verdict r = "pass" \/ verdict r = "flag"
  | Raises _ => False
  | Overruns => True
  end.
Proof. apply ceiling_guard_result. Qed.

(** The slot of a task that is not named "safety" and whose check returns
    only pass or flag does not block. *)
Lemma task_slot_no_block um mr task_name (fn : guard_fn) model_ :
  task_name <> "safety" ->
  (forall r, fn um mr model_ = Returns r -> verdict r <> "block") ->
  verdict (task_slot um mr (task_name, fn, model_)) <> "block".
Proof.
  intros Hname Hfn. unfold task_slot.
  destruct (fn um mr model_) as [r|e|] eqn:Hcall; cbn [verdict]; [by apply Hfn|done|].
  destruct (String.eqb_spec task_name "safety") as [?|_]; [done|]. done.
Qed.

(** C3. The format guard and the pii guard never return verdict block:
    they return pass or flag and do not raise, and when the normalized
    verdict they receive is block they return flag in its place. The
    results of a run of only these two guards never block. *)
Theorem format_and_pii_never_block (user_message model_response ollama_model : string) :
  (forall r, format_guard user_message model_response ollama_model = Returns r ->
             verdict r <> "block" /\ (verdict r = "pass" \/ verdict r = "flag")) /\
  (forall r, pii_guard user_message model_response ollama_model = Returns r ->
             verdict r <> "block" /\ (verdict r = "pass" \/ verdict r = "flag")) /\
  (forall e, format_guard user_message model_response ollama_model <> Raises e /\
             pii_guard user_message model_response ollama_model <> Raises e) /\
  (forall r0,
      call_ollama_guard "format" FORMAT_SYSTEM
        ("Model response to check:" +:+ NL +:+ or_empty model_response)
        ollama_model = Returns r0 ->
      verdict r0 = "block" ->
      format_guard user_message model_response ollama_model
      = Returns (mkGuardResult (name r0) "flag"
                   (Py.or_str (reason r0) "Format guard does not block") "")) /\
  (forall r0,
      call_ollama_guard "pii" PII_SYSTEM
        ("Model response to check:" +:+ NL +:+ or_empty model_response)
        ollama_model = Returns r0 ->
      verdict r0 = "block" ->
      pii_guard user_message model_response ollama_model
      = Returns (mkGuardResult (name r0) "flag"
                   (Py.or_str (reason r0) "PII guard does not block") "")) /\
  (exists results,
      run_guards user_message model_response
        [("format", format_guard); ("pii", pii_guard)] = Returns results /\
      any_block results = false /\ get_blocking_guard results = None).
Proof.
  pose proof (format_guard_result user_message model_response ollama_model) as Hf.
  pose proof (pii_guard_result user_message model_response ollama_model) as Hp.
  split; [|split; [|split; [|split; [|split]]]].
  - intros r Hr. rewrite Hr in Hf. split; [|done]. destruct Hf as [H|H]; congruence.
  - intros r Hr. rewrite Hr in Hp. split; [|done]. destruct Hp as [H|H]; congruence.
  - intros e. split; intros H; [rewrite H in Hf | rewrite H in Hp]; done.
  - intros r0 Hcall Hblock. unfold format_guard. rewrite Hcall.
    cbn [mbind outcome_bind]. by rewrite Hblock.
  - intros r0 Hcall Hblock. unfold pii_guard. rewrite Hcall.
    cbn [mbind outcome_bind]. by rewrite Hblock.
  - eexists. split; [apply run_guards_slots|]. apply no_block_any_block.
    assert (forall m r, format_guard (Py.strip user_message) (Py.strip model_response) m
                        = Returns r -> verdict r <> "block") as Hformat.
    { intros m r Hr.
      pose proof (format_guard_result (Py.strip user_message)
                    (Py.strip model_response) m) as H.
      rewrite Hr in H. destruct H as [H|H]; congruence. }
    assert (forall m r, pii_guard (Py.strip user_message) (Py.strip model_response) m
                        = Returns r -> verdict r <> "block") as Hpii.
    { intros m r Hr.
      pose proof (pii_guard_result (Py.strip user_message)
                    (Py.strip model_response) m) as H.
      rewrite Hr in H. destruct H as [H|H]; congruence. }
    cbn [enabled_tasks].
    destruct (is_guard_enabled "format"), (is_guard_enabled "pii");
      cbn [negb map];
      rewrite ?Forall_cons, Forall_nil; repeat split;
      (apply task_slot_no_block;
       [discriminate | first [apply Hformat | apply Hpii]]).
Qed.

(** ** Presentation of guard results *)

Lemma first_prefix_some lowered ps p :
  first_prefix lowered ps = Some p -> p ∈ ps /\ Py.startswith lowered p = true.
Proof.
  induction ps as [|q ps IH]; simpl; [done|].
  destruct (Py.startswith lowered q) eqn:Hq.
  - intros [= ->]. split; [left | done].
  - intros H. apply IH in H as [Hin Hp]. split; [by right | done].
Qed.

Lemma prefixes_len p : p ∈ prefixes -> (5 <= Py.len p)%nat.
Proof.
  unfold prefixes. rewrite !elem_of_cons, elem_of_nil.
  intros H. repeat destruct H as [->|H]; try done; simpl; lia.
Qed.

(** The rounds given to the loop are enough: it stops because the text is
    empty or because no prefix is left, never because it ran out. *)
Lemma strip_prefixes_exits rounds : forall s,
  (Py.len s <= rounds)%nat ->
  Py.nonempty (strip_prefixes rounds s) = false \/
  first_prefix (Py.lower (strip_prefixes rounds s)) prefixes = None.
Proof.
  induction rounds as [|rounds IH]; intros s Hlen.
  - destruct s; [by left | simpl in Hlen; lia].
  - cbn [strip_prefixes]. destruct (Py.nonempty s) eqn:Hs; [|by left].
    destruct (first_prefix (Py.lower s) prefixes) as [p|] eqn:Hp; [|by right].
    apply IH. apply first_prefix_some in Hp as [Hin Hstart].
    apply prefixes_len in Hin. apply startswith_len in Hstart.
    rewrite lower_len in Hstart.
    pose proof (strip_len (Py.drop (Py.len p) s)) as Hstrip.
    rewrite drop_len in Hstrip. lia.
Qed.

Lemma normalize_guard_reason_len reason_ :
  (Py.len (_normalize_guard_reason reason_) <= 120)%nat.
Proof.
  unfold _normalize_guard_reason.
  destruct (negb (Py.nonempty reason_)); [simpl; lia|].
  destruct (Nat.ltb_spec 120 (Py.len (strip_prefixes (Py.len (Py.strip reason_))
                                        (Py.strip reason_)))); [apply take_len | lia].
Qed.


(** ** Precedence of the normalizer's rules *)






Lemma occurs_contains w s : occurs w s <-> Py.contains (Py.lower s) w = true.
Proof. unfold occurs. by rewrite contains_app. Qed.




(** ** The session store *)

Lemma get_history_fst session_id (st : gmap string (list message)) :
  (get_history session_id st).1 = default [] (st !! session_id).
Proof. unfold get_history, sessions_getitem. by destruct (st !! session_id). Qed.

Lemma get_history_snd session_id (st : gmap string (list message)) sid :
  default [] ((get_history session_id st).2 !! sid) = default [] (st !! sid).
Proof.
  unfold get_history, sessions_getitem.
  destruct (st !! session_id) eqn:Hs; [done|]. cbn [snd].
  destruct (decide (session_id = sid)) as [<-|Hne].
  - by rewrite lookup_insert_eq, Hs.
  - by rewrite lookup_insert_ne.
Qed.

Lemma most_recent_all {A} n (l : list A) : (length l <= n)%nat -> most_recent n l = l.
Proof. intros H. unfold most_recent. by replace (length l - n)%nat with 0%nat by lia. Qed.

Lemma most_recent_length {A} n (l : list A) : (length (most_recent n l) <= n)%nat.
Proof. unfold most_recent. rewrite length_drop. lia. Qed.

Lemma most_recent_app {A} n (l x : list A) :
  most_recent n (most_recent n l ++ x) = most_recent n (l ++ x).
Proof.
  unfold most_recent. rewrite !length_app, length_drop.
  destruct (decide (length l <= n)%nat) as [Hle|Hgt].
  - replace (length l - n)%nat with 0%nat by lia. rewrite drop_0. f_equal. lia.
  - rewrite !drop_app, drop_drop, length_drop. f_equal; f_equal; lia.
Qed.

(** What one [append_exchange] does to each session's list. *)
Lemma append_exchange_lookup session_id user_message assistant_message
    (st : gmap string (list message)) sid :
  default [] (append_exchange session_id user_message assistant_message st !! sid)
  = if decide (session_id = sid)
    then most_recent MAX_HISTORY_MESSAGES
           (default [] (st !! session_id)
            ++ [mk_message "user" user_message;
                mk_message "assistant" assistant_message])
    else default [] (st !! sid).
Proof.
  unfold append_exchange.
  pose proof (get_history_fst session_id st) as Hfst.
  pose proof (get_history_snd session_id st) as Hsnd.
  unfold get_history in Hfst, Hsnd.
  destruct (sessions_getitem session_id st) as [messages st0]. cbn [fst snd] in *.
  subst messages.
  rewrite <- app_assoc. cbn [app].
  set (l := default [] (st !! session_id)
            ++ [mk_message "user" user_message;
                mk_message "assistant" assistant_message]).
  destruct (decide (session_id = sid)) as [<-|Hne].
  - destruct (Nat.ltb_spec MAX_HISTORY_MESSAGES (length l)).
    + by rewrite lookup_insert_eq.
    + rewrite lookup_insert_eq. cbn [default]. by rewrite most_recent_all.
  - destruct (MAX_HISTORY_MESSAGES <? length l)%nat;
      rewrite ?lookup_insert_ne by done; apply Hsnd.
Qed.

Lemma appended_snoc sid calls session_id user_message assistant_message :
  appended sid (calls ++ [(session_id, user_message, assistant_message)])
  = appended sid calls
    ++ (if decide (session_id = sid)
        then [mk_message "user" user_message;
              mk_message "assistant" assistant_message]
        else []).
Proof.
  unfold appended. rewrite flat_map_app. f_equal. cbn [flat_map].
  rewrite app_nil_r.
  destruct (String.eqb_spec session_id sid), (decide (session_id = sid)); done.
Qed.

(** The store after any sequence of appends, started empty, holds for each
    session the most recent messages appended to it. *)
Lemma run_appends_lookup calls sid :
  default [] (run_appends calls ∅ !! sid)
  = most_recent MAX_HISTORY_MESSAGES (appended sid calls).
Proof.
  induction calls as [|[[session_id user_message] assistant_message] calls IH]
    using rev_ind.
  - unfold run_appends. cbn [foldl]. by rewrite lookup_empty.
  - unfold run_appends in *. rewrite foldl_snoc, append_exchange_lookup.
    rewrite appended_snoc.
    destruct (decide (session_id = sid)) as [->|Hne].
    + rewrite IH. apply most_recent_app.
    + by rewrite app_nil_r.
Qed.

Lemma appended_one_session session_id (exchanges : list (string * string)) :
  appended session_id (map (fun '(u, a) => (session_id, u, a)) exchanges)
  = flat_map (fun '(u, a) => [mk_message "user" u; mk_message "assistant" a]) exchanges.
Proof.
  induction exchanges as [|[u a] exchanges IH]; [done|].
  unfold appended in *. cbn [map flat_map]. rewrite IH.
  by rewrite String.eqb_refl.
Qed.

Lemma exchanges_length (exchanges : list (string * string)) :
  length (flat_map (fun '(u, a) => [mk_message "user" u; mk_message "assistant" a])
            exchanges)
  = (2 * length exchanges)%nat.
Proof. induction exchanges as [|[u a] l IH]; [done|]. cbn [flat_map app length]. lia. Qed.

(** C9. After any sequence of [append_exchange] calls on the empty store,
    [get_history] returns for a session the messages appended to it, in
    insertion order, cut to the 20 most recent: at most 20 messages, a
    suffix of what was appended. After 11 exchanges in one session it
    returns 20 messages, the 22 appended without the oldest 2. *)
Theorem history_keeps_last_20 (calls : list (string * string * string))
    (session_id : string) :
  let history := (get_history session_id (run_appends calls ∅)).1 in
  history = most_recent 20 (appended session_id calls) /\
  (length history <= 20)%nat /\
  (exists dropped, appended session_id calls = dropped ++ history) /\
  (forall exchanges : list (string * string),
      calls = map (fun '(u, a) => (session_id, u, a)) exchanges ->
      length exchanges = 11%nat ->
      length history = 20%nat /\
      history
      = drop 2 (flat_map (fun '(u, a) => [mk_message "user" u;
                                           mk_message "assistant" a]) exchanges)).
Proof.
  intros history. subst history. rewrite get_history_fst, run_appends_lookup.
  change MAX_HISTORY_MESSAGES with 20%nat.
  split; [done|]. split; [apply most_recent_length|]. split.
  - exists (take (length (appended session_id calls) - 20) (appended session_id calls)).
    unfold most_recent. by rewrite take_drop.
  - intros exchanges -> Hlen. rewrite appended_one_session.
    unfold most_recent. rewrite exchanges_length, Hlen. cbn [Nat.mul Nat.add Nat.sub].
    split; [|done]. rewrite length_drop, exchanges_length, Hlen. done.
Qed.

(** ** The chat pipeline *)

Lemma append_exchange_history session_id user_message assistant_message
    (st st0 : gmap string (list message)) :
  (forall sid, default [] (st0 !! sid) = default [] (st !! sid)) ->
  forall sid,
    (get_history sid (append_exchange session_id user_message assistant_message st0)).1
    = (get_history sid (append_exchange session_id user_message assistant_message st)).1.
Proof.
  intros Hsame sid. rewrite !get_history_fst, !append_exchange_lookup.
  by rewrite !Hsame.
Qed.

Lemma task_slot_verdict_word um mr task_name (fn : guard_fn) model_ :
  (forall r, fn um mr model_ = Returns r -> is_verdict_word (verdict r) = true) ->
  is_verdict_word (verdict (task_slot um mr (task_name, fn, model_))) = true.
Proof.
  intros Hfn. unfold task_slot.
  destruct (fn um mr model_) as [r|e|]; cbn [verdict]; [by apply Hfn|done|].
  by destruct (_ && _).
Qed.

Lemma enabled_tasks_slots (P : GuardResult -> Prop) um mr guard_fns :
  Forall (fun '(task_name, fn) =>
            forall model_, P (task_slot um mr (task_name, fn, model_))) guard_fns ->
  Forall P (map (task_slot um mr) (enabled_tasks guard_fns)).
Proof.
  induction 1 as [|[task_name fn] rest Hhead _ IH]; [apply Forall_nil_2|].
  cbn [enabled_tasks]. destruct (negb _); [done|].
  cbn [map]. apply Forall_cons_2; [apply Hhead | done].
Qed.

(** Every result the pipeline gets from its four guards carries a verdict
    word. *)
Lemma guard_results_verdict_words um mr :
  exists guard_results,
    run_guards um mr GUARD_FNS = Returns guard_results /\
    Forall (fun r => is_verdict_word (verdict r) = true) guard_results.
Proof.
  eexists. split; [apply run_guards_slots|].
  apply enabled_tasks_slots. unfold GUARD_FNS.
  assert (forall g sys uc m r, call_ollama_guard g sys uc m = Returns r ->
                               is_verdict_word (verdict r) = true) as Hcall.
  { intros g sys uc m r Hr. pose proof (call_ollama_guard_result g sys uc m) as H.
    rewrite Hr in H. apply H. }
  assert (forall (v : outcome GuardResult),
             match v with
             | Returns r => verdict r = "pass" \/ verdict r = "flag"
             | Raises _ => False
             | Overruns => True
             end ->
             forall r, v = Returns r -> is_verdict_word (verdict r) = true) as Hceil.
  { intros v Hv r ->. by destruct Hv as [-> | ->]. }
  rewrite !Forall_cons, Forall_nil. repeat split; intros model_;
    apply task_slot_verdict_word; intros r.
  - apply Hcall.
  - apply Hcall.
  - apply Hceil, format_guard_result.
  - apply Hceil, pii_guard_result.
Qed.

Lemma out_verdict_of_word r :
  is_verdict_word (verdict r) = true ->
  Out.verdict (guard_result_out r) = verdict r.
Proof.
  intros H. unfold guard_result_out. cbn [Out.verdict].
  by apply is_verdict_word_cases in H as [-> | [-> | ->]].
Qed.

Lemma out_verdicts guard_results :
  Forall (fun r => is_verdict_word (verdict r) = true) guard_results ->
  (any_block guard_results = true ->
   Exists (fun g => Out.verdict g = "block") (_guard_results_out guard_results)) /\
  (any_block guard_results = false ->
   Forall (fun g => Out.verdict g <> "block") (_guard_results_out guard_results)).
Proof.
  induction 1 as [|r rest Hr _ [IHt IHf]]; cbn [any_block _guard_results_out map].
  - split; [done | intros _; apply Forall_nil_2].
  - destruct (verdict_is_block r) eqn:Hb.
    + split; [|done]. intros _. apply Exists_cons_hd.
      rewrite out_verdict_of_word by done. by apply verdict_is_block_iff.
    + split.
      * intros H. apply Exists_cons_tl. by apply IHt.
      * intros H. apply Forall_cons_2; [|by apply IHf].
        rewrite out_verdict_of_word by done.
        intros Hv. apply verdict_is_block_iff in Hv. congruence.
Qed.

(** C10. A request answered as blocked leaves every session's history as
    it was: [get_history] returns after the request what it returned
    before. The answer is blocked exactly when the guards ran and the guard
    results it reports contain a block verdict. History grows only when the
    answer is not blocked (the guards passed it or were skipped), by the
    exchange of that request; a request that ends in an error leaves the
    history as it was. *)
Theorem blocked_chat_keeps_history (req : Req.ChatRequest)
    (st st' : gmap string (list message)) (o : outcome Resp.ChatResponse) :
  chat req st = (o, st') ->
  match o with
  | Returns resp =>
      if Resp.blocked resp then
        (forall sid, (get_history sid st').1 = (get_history sid st).1) /\
        Req.skip_guards req = false /\
        Exists (fun g => Out.verdict g = "block") (Resp.guard_results resp)
      else
        (forall sid,
            (get_history sid st').1
            = (get_history sid
                 (append_exchange (Resp.session_id resp) (Py.strip (Req.message req))
                    (Resp.response resp) st)).1) /\
        Forall (fun g => Out.verdict g <> "block") (Resp.guard_results resp)
  | _ => forall sid, (get_history sid st').1 = (get_history sid st).1
  end.
Proof.
  unfold chat.
  assert (forall s, Py.or_str s "" = s) as Hor by (by intros []).
  rewrite Hor.
  set (message_ := Py.strip (Req.message req)).
  destruct (negb (Py.nonempty message_)); [by intros [= <- <-]|].
  destruct (MAX_MESSAGE_LENGTH <? _); [by intros [= <- <-]|].
  set (session_id := Py.or_str _ uuid_second).
  assert (exists history st0,
             match Req.history req with
             | Some h => (h, st)
             | None => get_history session_id st
             end = (history, st0) /\
             forall sid, default [] (st0 !! sid) = default [] (st !! sid))
    as (history & st0 & -> & Hsame).
  { destruct (Req.history req) as [h|]; [by eexists _, _|].
    destruct (get_history session_id st) as [history st0] eqn:Hget.
    exists history, st0. split; [done|]. intros sid.
    replace st0 with (get_history session_id st).2 by (by rewrite Hget).
    apply get_history_snd. }
  assert (forall sid, (get_history sid st0).1 = (get_history sid st).1) as Hkeep
      by (intros sid; by rewrite !get_history_fst).
  destruct (chat_completion _ _ _) as [raw_response|e|].
  - destruct (Req.skip_guards req) eqn:Hskip.
    + intros [= <- <-]. cbn [Resp.blocked Resp.session_id Resp.response Resp.guard_results].
      split; [by apply append_exchange_history | apply Forall_nil_2].
    + destruct (guard_results_verdict_words message_ (_normalize_response raw_response))
        as (guard_results & -> & Hwords).
      cbn [try_except].
      destruct (out_verdicts guard_results Hwords) as [Hblocked Hpassed].
      destruct (any_block guard_results); intros [= <- <-];
        cbn [Resp.blocked Resp.session_id Resp.response Resp.guard_results].
      * split; [done|]. split; [done | by apply Hblocked].
      * split; [by apply append_exchange_history | by apply Hpassed].
  - destruct (_ || _); by intros [= <- <-].
  - by intros [= <- <-].
Qed.

(* ===================================================================== *)
(** * Further properties of the code *)
(* ===================================================================== *)

(** ** Trimming *)

Lemma lstrip_idem s : Py.lstrip (Py.lstrip s) = Py.lstrip s.
Proof.
  induction s as [|c s IH]; [done|]. simpl.
  destruct (Py.is_space c) eqn:Hc; [done|]. simpl. by rewrite Hc.
Qed.

Lemma rstrip_idem s : Py.rstrip (Py.rstrip s) = Py.rstrip s.
Proof.
  induction s as [|c s IH]; [done|]. simpl.
  destruct (Py.rstrip s) as [|d r] eqn:Hr.
  - destruct (Py.is_space c) eqn:Hc; [done|]. simpl. by rewrite Hc.
  - change (Py.rstrip (String c (String d r))) with
      (match Py.rstrip (String d r) with
       | EmptyString => if Py.is_space c then EmptyString else String c EmptyString
       | x => String c x
       end).
    by rewrite IH.
Qed.

Lemma lstrip_rstrip s : Py.lstrip (Py.rstrip s) = Py.rstrip (Py.lstrip s).
Proof.
  induction s as [|c s IH]; [done|]. simpl.
  destruct (Py.is_space c) eqn:Hc.
  - rewrite <- IH. destruct (Py.rstrip s) as [|d r]; [done|]. simpl. by rewrite Hc.
  - assert (Py.rstrip (String c s)
            = match Py.rstrip s with
              | EmptyString => String c EmptyString
              | r => String c r
              end) as -> by (simpl; by rewrite Hc).
    destruct (Py.rstrip s); simpl; by rewrite Hc.
Qed.

Lemma strip_idem s : Py.strip (Py.strip s) = Py.strip s.
Proof.
  unfold Py.strip. by rewrite lstrip_rstrip, lstrip_idem, rstrip_idem.
Qed.

Lemma blank_lstrip s : blank s <-> Py.lstrip s = "".
Proof.
  unfold blank, Py.strip. split; [|by intros ->].
  induction s as [|c s IH]; [done|]. simpl.
  destruct (Py.is_space c) eqn:Hc; [done|]. simpl.
  destruct (Py.rstrip s); by rewrite ?Hc.
Qed.

Lemma blank_rstrip s : blank s -> Py.rstrip s = "".
Proof.
  intros H. apply blank_lstrip in H.
  induction s as [|c s IH]; [done|]. simpl in *.
  destruct (Py.is_space c); [|done]. by rewrite IH.
Qed.

Lemma lstrip_blank_app a s : blank a -> Py.lstrip (a +:+ s) = Py.lstrip s.
Proof.
  intros H. apply blank_lstrip in H.
  induction a as [|c a IH]; [done|]. rewrite append_cons. simpl in *.
  destruct (Py.is_space c); [by apply IH | done].
Qed.

(** [rstrip] of two texts in a row. *)
Lemma rstrip_append x y :
  Py.rstrip (x +:+ y)
  = match Py.rstrip y with
    | EmptyString => Py.rstrip x
    | r => x +:+ r
    end.
Proof.
  induction x as [|c x IH];
    [rewrite append_nil; destruct (Py.rstrip y); by rewrite ?append_nil|].
  rewrite append_cons. simpl. rewrite IH.
  destruct (Py.rstrip y) as [|d r]; [done|].
  rewrite append_cons. by destruct x.
Qed.

Lemma strip_app_blank s b : blank b -> Py.strip (s +:+ b) = Py.strip s.
Proof.
  intros Hb. unfold Py.strip.
  induction s as [|c s IH].
  - rewrite append_nil. apply blank_lstrip in Hb. by rewrite Hb.
  - rewrite append_cons. simpl. destruct (Py.is_space c); [done|].
    rewrite <- append_cons, rstrip_append. by rewrite (blank_rstrip _ Hb).
Qed.

Lemma strip_blank_app a s b :
  blank a -> blank b -> Py.strip (a +:+ s +:+ b) = Py.strip s.
Proof.
  intros Ha Hb. unfold Py.strip. rewrite lstrip_blank_app by done.
  by apply strip_app_blank.
Qed.

(** ** The normalizer and surrounding whitespace *)

(** X1. The normalizer ignores whitespace around the classifier text:
    blank text before and after it changes neither verdict nor reason. *)
Theorem parse_verdict_ignores_outer_whitespace (a text b : string) :
  blank a -> blank b ->
  _parse_verdict (a +:+ text +:+ b) = _parse_verdict text.
Proof.
  intros Ha Hb. unfold _parse_verdict. cbn [_safe_str].
  by rewrite strip_blank_app.
Qed.

(** ** The normalizer on the output format the prompts ask for *)

Lemma split_nonempty s sep : Py.split s sep <> [].
Proof.
  destruct s as [|c s]; [done|]. simpl.
  destruct (Ascii.eqb c sep); [done|]. by destruct (Py.split s sep).
Qed.

Lemma join_cons_char sep c h t :
  Py.join sep (String c h :: t) = String c (Py.join sep (h :: t)).
Proof. by destruct t. Qed.

(** Splitting at line feeds and joining with line feeds gives the text
    back. *)
Lemma join_split s : Py.join NL (Py.split s LF) = s.
Proof.
  induction s as [|c s IH]; [done|]. simpl.
  destruct (Ascii.eqb_spec c LF) as [->|Hc].
  - pose proof (split_nonempty s LF) as Hne.
    destruct (Py.split s LF) as [|h t]; [done|].
    change (Py.join NL (EmptyString :: h :: t))
      with (EmptyString +:+ NL +:+ Py.join NL (h :: t)).
    by rewrite IH.
  - pose proof (split_nonempty s LF) as Hne.
    destruct (Py.split s LF) as [|h t]; [done|].
    by rewrite join_cons_char, IH.
Qed.

Lemma rstrip_blank s : Py.rstrip s = "" -> blank s.
Proof.
  intros H. unfold blank, Py.strip. by rewrite <- lstrip_rstrip, H.
Qed.

Lemma strip_rstrip s : Py.strip (Py.rstrip s) = Py.strip s.
Proof. unfold Py.strip. by rewrite lstrip_rstrip, rstrip_idem. Qed.

(** What the string operations do to a verdict word at the head of a
    text. *)
Lemma verdict_word_head w :
  is_verdict_word w = true ->
  (forall s, Py.lstrip (w +:+ s) = w +:+ s) /\
  Py.rstrip w = w /\
  Py.lower (Py.strip w) = w /\
  Py.split w LF = [w] /\
  (forall r, Py.split (w +:+ String LF r) LF = w :: Py.split r LF).
Proof.
  intros H. apply is_verdict_word_cases in H as [-> | [-> | ->]];
    repeat split; reflexivity.
Qed.

Lemma take_200_or_empty (rest : string) :
  (if Py.nonempty rest then Py.take 200 rest else "") = Py.take 200 rest.
Proof. by destruct rest. Qed.

(** X2. A classifier answer in the format the prompts ask for, a verdict
    word on the first line and a reason after it, is read back as that
    verdict with that reason, trimmed and cut to 200 characters. *)
Theorem parse_verdict_reads_prompt_format (w reason_ : string) :
  is_verdict_word w = true ->
  _parse_verdict (w +:+ NL +:+ reason_) = (w, Py.take 200 (Py.strip reason_)).
Proof.
  intros Hw.
  destruct (verdict_word_head w Hw) as (Hlstrip & Hrstrip & Hlower & Hone & Hsplit).
  assert (Py.strip (w +:+ NL +:+ reason_)
          = match Py.rstrip reason_ with
            | EmptyString => w
            | r => w +:+ String LF r
            end) as Hraw.
  { unfold Py.strip. rewrite Hlstrip, rstrip_append.
    change (NL +:+ reason_) with (String LF reason_).
    simpl (Py.rstrip (String LF reason_)).
    destruct (Py.rstrip reason_); [|done].
    change (Py.is_space LF) with true. cbn iota. exact Hrstrip. }
  unfold _parse_verdict. cbn [_safe_str]. rewrite Hraw.
  destruct (Py.rstrip reason_) as [|d r] eqn:Hreason.
  - rewrite Hone. cbn [hd tail]. rewrite Hlower, Hw.
    apply rstrip_blank in Hreason. unfold blank in Hreason. by rewrite Hreason.
  - rewrite Hsplit. cbn [hd tail]. rewrite Hlower, Hw.
    rewrite join_split, take_200_or_empty, <- Hreason. by rewrite strip_rstrip.
Qed.

(** ** The guards in terms of the normalizer *)




(** ** The four guards of the pipeline *)

Lemma call_ollama_guard_name guard_name system_prompt user_content model_ r :
  call_ollama_guard guard_name system_prompt user_content model_ = Returns r ->
  name r = Py.or_str (Py.strip guard_name) "guard".
Proof.
  intros Hr. pose proof (call_ollama_guard_result guard_name system_prompt
                           user_content model_) as H.
  rewrite Hr in H. apply H.
Qed.

Lemma ceiling_guard_name guard_name system_prompt user_content model_ fallback r :
  (r0 ← call_ollama_guard guard_name system_prompt user_content model_;
   if String.eqb (verdict r0) "block"
   then Returns (mkGuardResult (name r0) "flag" (Py.or_str (reason r0) fallback) "")
   else Returns r0) = Returns r ->
  name r = Py.or_str (Py.strip guard_name) "guard".
Proof.
  destruct (call_ollama_guard _ _ _ _) as [r0|e|] eqn:Hcall;
    cbn [mbind outcome_bind]; [|done|done].
  apply call_ollama_guard_name in Hcall.
  destruct (String.eqb _ _); intros [= <-]; exact Hcall.
Qed.

(** The result synthesized for a task that overran the wait. *)
Lemma timeout_slot task_name model_ :
  let r := if String.eqb task_name "safety" && String.eqb get_on_safety_timeout "block"
           then mkGuardResult task_name "block"
                  "Safety check timed out; response not verified." model_
           else mkGuardResult task_name "flag" "Timeout" model_ in
  name r = task_name /\ model r = model_ /\
  is_verdict_word (verdict r) = true /\
  (verdict r = "block" -> task_name = "safety" \/ task_name = "topic").
Proof.
  destruct (String.eqb_spec task_name "safety") as [->|Hn];
    destruct (String.eqb get_on_safety_timeout "block");
    cbn [andb name model verdict]; repeat split; auto; discriminate.
Qed.

(** The slot of each of the four pipeline guards: named after its task,
    with a verdict word, and block only for safety and topic. *)
Lemma pipeline_slot um mr task_name fn :
  (task_name, fn) ∈ GUARD_FNS ->
  forall model_,
    let r := task_slot um mr (task_name, fn, model_) in
    name r = task_name /\ model r = model_ /\
    is_verdict_word (verdict r) = true /\
    (verdict r = "block" -> task_name = "safety" \/ task_name = "topic").
Proof.
  unfold GUARD_FNS. rewrite !elem_of_cons, elem_of_nil.
  intros [H|[H|[H|[H|[]]]]] model_; injection H as -> ->; unfold task_slot.
  - pose proof (call_ollama_guard_result "safety" SAFETY_SYSTEM
                  ("User message:" +:+ NL +:+ or_empty um +:+ NL +:+ NL +:+
                   "Model response:" +:+ NL +:+ or_empty mr) model_) as H.
    unfold safety_guard. destruct (call_ollama_guard _ _ _ _) as [r|e|]; [|done|].
    + cbn [name model verdict]. destruct H as (Hw & Hn & _). rewrite Hn.
      repeat split; auto.
    + apply timeout_slot.
  - pose proof (call_ollama_guard_result "topic" TOPIC_SYSTEM
                  ("User message:" +:+ NL +:+ or_empty um +:+ NL +:+ NL +:+
                   "Model response:" +:+ NL +:+ or_empty mr) model_) as H.
    unfold topic_guard. destruct (call_ollama_guard _ _ _ _) as [r|e|]; [|done|].
    + cbn [name model verdict]. destruct H as (Hw & Hn & _). rewrite Hn.
      repeat split; auto.
    + apply timeout_slot.
  - pose proof (format_guard_result um mr model_) as H.
    destruct (format_guard um mr model_) as [r|e|] eqn:Hr; [|done|].
    + cbn [name model verdict]. apply ceiling_guard_name in Hr. rewrite Hr.
      split; [done|]. split; [done|]. split.
      * by destruct H as [-> | ->].
      * intros Hb. destruct H as [H|H]; congruence.
    + apply timeout_slot.
  - pose proof (pii_guard_result um mr model_) as H.
    destruct (pii_guard um mr model_) as [r|e|] eqn:Hr; [|done|].
    + cbn [name model verdict]. apply ceiling_guard_name in Hr. rewrite Hr.
      split; [done|]. split; [done|]. split.
      * by destruct H as [-> | ->].
      * intros Hb. destruct H as [H|H]; congruence.
    + apply timeout_slot.
Qed.

Lemma enabled_tasks_from guard_fns task_name fn model_ :
  (task_name, fn, model_) ∈ enabled_tasks guard_fns ->
  (task_name, fn) ∈ guard_fns /\ is_guard_enabled task_name = true /\
  model_ = get_guard_model task_name.
Proof.
  induction guard_fns as [|[n f] rest IH]; cbn [enabled_tasks].
  - intros H. by apply elem_of_nil in H.
  - destruct (is_guard_enabled n) eqn:Hn; cbn [negb].
    + rewrite elem_of_cons. intros [[= -> -> ->]|H].
      * split; [left | done].
      * apply IH in H as (Hin & He & Hm). split; [by right | done].
    + intros H. apply IH in H as (Hin & He & Hm). split; [by right | done].
Qed.

Lemma enabled_tasks_names guard_fns :
  map (fun t => t.1.1) (enabled_tasks guard_fns)
  = filter (fun n => is_guard_enabled n = true) (map fst guard_fns).
Proof.
  induction guard_fns as [|[n f] rest IH]; [done|]. cbn [enabled_tasks map fst].
  rewrite filter_cons. destruct (is_guard_enabled n) eqn:Hn; cbn [negb].
  - rewrite decide_True by done. cbn [map fst]. by rewrite IH.
  - rewrite decide_False by (by intros ?). done.
Qed.

(** X4. A run of the pipeline's four guards returns one result per enabled
    guard, named after it in the order safety, topic, format, pii and
    carrying the model configured for it, whether the guard answered,
    failed or timed out. Every verdict is pass, flag or block, and a block
    verdict is only ever found on the safety or the topic result. *)
Theorem pipeline_results_named_and_bounded (user_message model_response : string) :
  exists results,
    run_guards user_message model_response GUARD_FNS = Returns results /\
    map name results
    = filter (fun n => is_guard_enabled n = true) ["safety"; "topic"; "format"; "pii"] /\
    Forall (fun r =>
              model r = get_guard_model (name r) /\
              (verdict r = "pass" \/ verdict r = "flag" \/ verdict r = "block") /\
              (verdict r = "block" -> name r = "safety" \/ name r = "topic"))
           results.
Proof.
  eexists. split; [apply run_guards_slots|]. split.
  - change ["safety"; "topic"; "format"; "pii"] with (map fst GUARD_FNS).
    rewrite <- enabled_tasks_names.
    pose proof (enabled_tasks_from GUARD_FNS) as Hfrom.
    induction (enabled_tasks GUARD_FNS) as [|[[n f] m] tasks IH]; [done|].
    cbn [map fst]. f_equal.
    + destruct (Hfrom n f m) as (Hin & _); [left|].
      apply (pipeline_slot _ _ _ _ Hin).
    + apply IH. intros n' f' m' H. apply Hfrom. by right.
  - pose proof (enabled_tasks_from GUARD_FNS) as Hfrom.
    induction (enabled_tasks GUARD_FNS) as [|[[n f] m] tasks IH];
      [apply Forall_nil_2|].
    cbn [map]. apply Forall_cons_2.
    + destruct (Hfrom n f m) as (Hin & _ & Hm); [left|].
      destruct (pipeline_slot (Py.strip user_message) (Py.strip model_response)
                  _ _ Hin m) as (Hn & Hmodel & Hw & Hb).
      rewrite Hn, Hmodel. split; [done|]. split; [by apply is_verdict_word_cases | done].
    + apply IH. intros n' f' m' H. apply Hfrom. by right.
Qed.

(** ** Composition of runs *)





(** ** Fail-open behaviour *)

Lemma enabled_tasks_none guard_fns :
  (forall task_name, is_guard_enabled task_name = false) ->
  enabled_tasks guard_fns = [].
Proof.
  intros Hoff. induction guard_fns as [|[n f] rest IH]; [done|].
  cbn [enabled_tasks]. by rewrite Hoff.
Qed.

Lemma is_guard_enabled_unconfigured task_name :
  guards _config !! task_name = None -> is_guard_enabled task_name = false.
Proof. intros H. unfold is_guard_enabled. rewrite H. by destruct (negb _). Qed.

(** X6. A guard runs only when the configuration has an entry for it
    that enables it: a guard without an entry, and the guard with the
    empty name, is skipped. With a configuration that has no [guards]
    entries no check is run at all and the run returns no result. *)
Theorem unconfigured_guards_do_not_run (user_message model_response : string)
    (guard_fns : list (string * guard_fn)) :
  (forall task_name fn model_,
      (task_name, fn, model_) ∈ enabled_tasks guard_fns ->
      task_name <> "" /\
      exists g, guards _config !! task_name = Some g /\ enabled g = true) /\
  (guards _config = ∅ ->
   run_guards user_message model_response guard_fns = Returns []).
Proof.
  split.
  - intros task_name fn model_ Hin.
    apply enabled_tasks_from in Hin as (_ & Hen & _).
    unfold is_guard_enabled in Hen.
    destruct task_name as [|c n]; [done|]. split; [done|]. cbn [Py.nonempty negb] in Hen.
    destruct (guards _config !! String c n) as [g|]; [by exists g | done].
  - intros Hempty.
    rewrite run_guards_slots, enabled_tasks_none; [done|].
    intros task_name. apply is_guard_enabled_unconfigured.
    by rewrite Hempty, lookup_empty.
Qed.

(** When the classifier service fails on every call, each of the four
    guards reports flag with the error text. *)
Lemma pipeline_slot_classifier_down um mr task_name fn :
  (forall m s u, exists e, ollama_chat m s u = Raises e) ->
  (task_name, fn) ∈ GUARD_FNS ->
  forall model_,
    let r := task_slot um mr (task_name, fn, model_) in
    verdict r = "flag" /\ exists e, reason r = "Ollama error: " +:+ exn_str e.
Proof.
  intros Hdown.
  assert (forall g sys uc m,
             exists e, call_ollama_guard g sys uc m
                       = Returns (mkGuardResult (Py.or_str (Py.strip g) "guard") "flag"
                                    ("Ollama error: " +:+ exn_str e) "")) as Hcall.
  { intros g sys uc m. unfold call_ollama_guard. cbn [_safe_str].
    destruct (Hdown (Py.or_str (Py.strip m) "phi3")
                (Py.or_str (Py.strip sys) "Classify as pass, flag, or block.")
                (Py.or_str (Py.strip uc) "(no content)")) as [e ->].
    by exists e. }
  unfold GUARD_FNS. rewrite !elem_of_cons, elem_of_nil.
  intros [H|[H|[H|[H|[]]]]] model_; injection H as -> ->; unfold task_slot.
  - unfold safety_guard. destruct (Hcall "safety" SAFETY_SYSTEM
      ("User message:" +:+ NL +:+ or_empty um +:+ NL +:+ NL +:+
       "Model response:" +:+ NL +:+ or_empty mr) model_) as [e ->].
    cbn [verdict reason]. split; [done | by exists e].
  - unfold topic_guard. destruct (Hcall "topic" TOPIC_SYSTEM
      ("User message:" +:+ NL +:+ or_empty um +:+ NL +:+ NL +:+
       "Model response:" +:+ NL +:+ or_empty mr) model_) as [e ->].
    cbn [verdict reason]. split; [done | by exists e].
  - unfold format_guard. destruct (Hcall "format" FORMAT_SYSTEM
      ("Model response to check:" +:+ NL +:+ or_empty mr) model_) as [e ->].
    cbn [mbind outcome_bind verdict reason String.eqb]. split; [done | by exists e].
  - unfold pii_guard. destruct (Hcall "pii" PII_SYSTEM
      ("Model response to check:" +:+ NL +:+ or_empty mr) model_) as [e ->].
    cbn [mbind outcome_bind verdict reason String.eqb]. split; [done | by exists e].
Qed.

Lemma enabled_pipeline_slots (P : GuardResult -> Prop) um mr :
  (forall task_name fn model_,
      (task_name, fn) ∈ GUARD_FNS -> P (task_slot um mr (task_name, fn, model_))) ->
  Forall P (map (task_slot um mr) (enabled_tasks GUARD_FNS)).
Proof.
  intros HP. pose proof (enabled_tasks_from GUARD_FNS) as Hfrom.
  induction (enabled_tasks GUARD_FNS) as [|[[n f] m] tasks IH]; [apply Forall_nil_2|].
  cbn [map]. apply Forall_cons_2.
  - apply HP. apply (Hfrom n f m). left.
  - apply IH. intros n' f' m' H. apply Hfrom. by right.
Qed.

Lemma classifier_down_flags_everything_run um mr :
  (forall m s u, exists e, ollama_chat m s u = Raises e) ->
  exists results,
    run_guards um mr GUARD_FNS = Returns results /\
    any_block results = false.
Proof.
  intros Hdown. eexists. split; [apply run_guards_slots|].
  apply no_block_any_block, enabled_pipeline_slots.
  intros task_name fn model_ Hin.
  destruct (pipeline_slot_classifier_down (Py.strip um) (Py.strip mr) task_name fn
              Hdown Hin model_) as [Hv _].
  congruence.
Qed.

(** X7. The guard engine fails open when the classifier service is down:
    if every classifier call raises, every guard of the pipeline reports
    flag with a reason that starts with "Ollama error: ", and the run does
    not block. *)
Theorem classifier_down_flags_everything (user_message model_response : string) :
  (forall m s u, exists e, ollama_chat m s u = Raises e) ->
  exists results,
    run_guards user_message model_response GUARD_FNS = Returns results /\
    Forall (fun r => verdict r = "flag" /\
                     exists e, reason r = "Ollama error: " +:+ exn_str e) results /\
    any_block results = false /\ get_blocking_guard results = None.
Proof.
  intros Hdown. eexists. split; [apply run_guards_slots|].
  assert (Forall (fun r => verdict r = "flag" /\
                           exists e, reason r = "Ollama error: " +:+ exn_str e)
            (map (task_slot (Py.strip user_message) (Py.strip model_response))
               (enabled_tasks GUARD_FNS))) as Hall.
  { apply enabled_pipeline_slots. intros task_name fn model_ Hin.
    by apply pipeline_slot_classifier_down. }
  split; [exact Hall|]. apply no_block_any_block.
  eapply Forall_impl; [exact Hall|]. intros r [Hv _]. congruence.
Qed.

(** ** The request handler, case by case *)

(** Every way through [chat]. *)
Lemma chat_cases (req : Req.ChatRequest) (st : gmap string (list message)) :
  let msg := request_message req in
  let sid := request_session_id req in
  let st0 := (request_history req st).2 in
  if negb (Py.nonempty msg)
  then chat req st = (Raises (HTTPException 400 "message is required"), st)
  else if MAX_MESSAGE_LENGTH <? Z.of_nat (Py.len msg)
  then chat req st
       = (Raises (HTTPException 400 "message too long (max 32000 characters)"), st)
  else
    match chat_completion msg (request_system req) (request_history req st).1 with
    | Raises e => chat req st = (Raises (generation_error e), st0)
    | Overruns => chat req st = (Overruns, st0)
    | Returns raw0 =>
        let raw := Py.strip raw0 in
        if Req.skip_guards req
        then chat req st
             = (Returns (Resp.mk raw false [] sid get_groq_model),
                append_exchange sid msg raw st0)
        else
          exists guard_results,
            run_guards msg raw GUARD_FNS = Returns guard_results /\
            Forall (fun r => is_verdict_word (verdict r) = true) guard_results /\
            chat req st
            = if any_block guard_results
              then (Returns (Resp.mk (blocked_text guard_results) true
                               (_guard_results_out guard_results) sid get_groq_model),
                    st0)
              else (Returns (Resp.mk raw false (_guard_results_out guard_results)
                               sid get_groq_model),
                    append_exchange sid msg raw st0)
    end.
Proof.
  intros msg sid st0. subst msg sid st0.
  unfold chat, request_history, request_message, request_session_id, request_system.
  destruct (negb (Py.nonempty _)); [done|].
  destruct (MAX_MESSAGE_LENGTH <? _); [done|].
  destruct (match Req.history req with
            | Some h => (h, st)
            | None => get_history _ st
            end) as [history st0].
  cbn [fst snd].
  destruct (chat_completion _ _ history) as [raw0|e|]; [| |done].
  - unfold _normalize_response. destruct (Req.skip_guards req); [done|].
    destruct (guard_results_verdict_words
                (Py.strip (Py.or_str (Req.message req) "")) (Py.strip raw0))
      as (guard_results & Hrun & Hwords).
    exists guard_results. split; [done|]. split; [done|].
    rewrite Hrun. cbn [try_except]. by destruct (any_block guard_results).
  - unfold generation_error. by destruct (_ || _).
Qed.

Lemma request_history_same req (st : gmap string (list message)) sid :
  default [] ((request_history req st).2 !! sid) = default [] (st !! sid).
Proof.
  unfold request_history. destruct (Req.history req); [done|].
  apply get_history_snd.
Qed.

Lemma history_same_fst (st st0 : gmap string (list message)) :
  (forall sid, default [] (st0 !! sid) = default [] (st !! sid)) ->
  forall sid, (get_history sid st0).1 = (get_history sid st).1.
Proof. intros H sid. by rewrite !get_history_fst. Qed.


(** X8. The only errors [chat] raises are HTTP errors of three kinds:
    400 for a blank message and 400 for a message of more than 32000
    characters, both with the store left as it was, and, when the
    generation call raises, 401 if the error text mentions "401",
    "invalid api key" or "expired_api_key" in any case and 502 with the
    error text otherwise. A failure inside the guards never becomes an
    error of the request. No error changes any session's history. *)
Theorem chat_error_responses (req : Req.ChatRequest)
    (st st' : gmap string (list message)) (e : exn) :
  chat req st = (Raises e, st') ->
  (forall sid, (get_history sid st').1 = (get_history sid st).1) /\
  ((blank (Req.message req) /\ e = HTTPException 400 "message is required" /\ st' = st) \/
   (32000 < Z.of_nat (Py.len (Py.strip (Req.message req))) /\
    e = HTTPException 400 "message too long (max 32000 characters)" /\ st' = st) \/
   (exists e0,
       chat_completion (request_message req) (request_system req)
         (request_history req st).1 = Raises e0 /\
       (((occurs "401" (exn_str e0) \/ occurs "invalid api key" (exn_str e0)
          \/ occurs "expired_api_key" (exn_str e0)) /\
         e = HTTPException 401
               "Invalid or expired Groq API key. Get a new key at https://console.groq.com/keys and set GROQ_API_KEY in your .env file, then restart the app.")
        \/
        (~ (occurs "401" (exn_str e0) \/ occurs "invalid api key" (exn_str e0)
            \/ occurs "expired_api_key" (exn_str e0)) /\
         e = HTTPException 502 (exn_str e0))))).
Proof.
  pose proof (chat_cases req st) as Hcases. cbv zeta in Hcases.
  assert (forall s, Py.or_str s "" = s) as Hor by (by intros []).
  unfold request_message in Hcases at 1 2. rewrite Hor in Hcases.
  destruct (Py.strip (Req.message req)) as [|c m] eqn:Hmsg.
  { cbn [Py.nonempty negb] in Hcases. rewrite Hcases. intros [= <- <-].
    split; [done|]. left. by repeat split. }
  cbn [Py.nonempty negb] in Hcases.
  destruct (Z.ltb_spec MAX_MESSAGE_LENGTH (Z.of_nat (Py.len (String c m)))) as [Hlong|_].
  { rewrite Hcases. intros [= <- <-]. split; [done|]. right. left. by repeat split. }
  destruct (chat_completion _ _ _) as [raw0|e0|] eqn:Hgen.
  - destruct (Req.skip_guards req); [by rewrite Hcases|].
    destruct Hcases as (guard_results & _ & _ & ->).
    by destruct (any_block guard_results).
  - rewrite Hcases. intros [= <- <-].
    split; [apply history_same_fst, request_history_same|].
    right. right. exists e0. split; [done|]. unfold generation_error.
    rewrite !occurs_contains.
    destruct (Py.contains _ "401") eqn:H1; [left; split; [auto | done]|].
    destruct (Py.contains _ "invalid api key") eqn:H2; [left; split; [auto | done]|].
    destruct (Py.contains _ "expired_api_key") eqn:H3; [left; split; [auto | done]|].
    right. split; [|done]. intros [H|[H|H]]; congruence.
  - by rewrite Hcases.
Qed.



(** ** The session store, on any store *)

Lemma most_recent_keeps_tail {A} n (old new : list A) :
  (length new <= n)%nat ->
  exists earlier, most_recent n (old ++ new) = earlier ++ new.
Proof.
  intros Hn. unfold most_recent. rewrite drop_app_le by (rewrite length_app; lia).
  by eexists.
Qed.

(** X10. On any store, [append_exchange] leaves the session with at most
    20 messages that end with the new user message and the new assistant
    message, and does not change the history of any other session. *)
Theorem append_exchange_effect (session_id user_message assistant_message : string)
    (st : gmap string (list message)) :
  let st' := append_exchange session_id user_message assistant_message st in
  (exists earlier,
      (get_history session_id st').1
      = earlier ++ [mk_message "user" user_message;
                    mk_message "assistant" assistant_message]) /\
  (length (get_history session_id st').1 <= 20)%nat /\
  (forall other, other <> session_id ->
                 (get_history other st').1 = (get_history other st).1).
Proof.
  intros st'. subst st'. split; [|split].
  - rewrite get_history_fst, append_exchange_lookup, decide_True by done.
    apply most_recent_keeps_tail. unfold MAX_HISTORY_MESSAGES. cbn [length]. lia.
  - rewrite get_history_fst, append_exchange_lookup, decide_True by done.
    apply most_recent_length.
  - intros other Hother.
    rewrite !get_history_fst, append_exchange_lookup, decide_False by done. done.
Qed.

(** X11. Reading a history changes no history: after [get_history], every
    session reads as before and a second read returns the same messages
    and leaves the store as the first left it. A session that was never
    written reads as the empty list, and the read leaves an empty entry
    for it in the store. *)
Theorem get_history_reads_only (session_id : string)
    (st : gmap string (list message)) :
  let st' := (get_history session_id st).2 in
  (forall sid, (get_history sid st').1 = (get_history sid st).1) /\
  get_history session_id st' = ((get_history session_id st).1, st') /\
  (st !! session_id = None ->
   (get_history session_id st).1 = [] /\ st' !! session_id = Some []) /\
  (forall messages, st !! session_id = Some messages ->
                    get_history session_id st = (messages, st)).
Proof.
  intros st'. subst st'. split; [|split; [|split]].
  - intros sid. rewrite !get_history_fst. apply get_history_snd.
  - unfold get_history, sessions_getitem.
    destruct (st !! session_id) as [messages|] eqn:Hs; cbn [fst snd].
    + by rewrite Hs.
    + by rewrite lookup_insert_eq.
  - intros Hs. unfold get_history, sessions_getitem. rewrite Hs. cbn [fst snd].
    by rewrite lookup_insert_eq.
  - intros messages Hs. unfold get_history, sessions_getitem. by rewrite Hs.
Qed.

Lemma appended_exchanges sid calls :
  appended sid calls = flat_map exchange_messages (exchanges_of sid calls).
Proof.
  unfold appended, exchanges_of.
  induction calls as [|[[s u] a] calls IH]; [done|]. cbn [flat_map].
  rewrite flat_map_app, <- IH. f_equal.
  by destruct (String.eqb s sid).
Qed.

Lemma drop_exchange_messages n (exchanges : list (string * string)) :
  drop (2 * n) (flat_map exchange_messages exchanges)
  = flat_map exchange_messages (drop n exchanges).
Proof.
  revert exchanges. induction n as [|n IH]; intros exchanges; [done|].
  destruct exchanges as [|x exchanges]; [done|].
  replace (2 * S n)%nat with (S (S (2 * n))) by lia.
  cbn [flat_map exchange_messages app drop]. apply IH.
Qed.

Lemma exchange_messages_length (exchanges : list (string * string)) :
  length (flat_map exchange_messages exchanges) = (2 * length exchanges)%nat.
Proof.
  induction exchanges as [|x l IH]; [done|]. cbn [flat_map exchange_messages app length].
  lia.
Qed.

(** X12. The store never holds half an exchange: after any sequence of
    appends to the empty store, a session's history is exactly its last
    10 exchanges, each a user message followed by an assistant message,
    and so has twice as many messages as exchanges kept. *)
Theorem history_is_whole_exchanges (calls : list (string * string * string))
    (session_id : string) :
  let kept := most_recent 10 (exchanges_of session_id calls) in
  (get_history session_id (run_appends calls ∅)).1 = flat_map exchange_messages kept /\
  length (get_history session_id (run_appends calls ∅)).1 = (2 * length kept)%nat.
Proof.
  intros kept. subst kept.
  assert ((get_history session_id (run_appends calls ∅)).1
          = flat_map exchange_messages
              (most_recent 10 (exchanges_of session_id calls))) as ->.
  { rewrite get_history_fst, run_appends_lookup, appended_exchanges.
    unfold most_recent, MAX_HISTORY_MESSAGES.
    rewrite exchange_messages_length, <- drop_exchange_messages. f_equal. lia. }
  split; [done | apply exchange_messages_length].
Qed.

(** ** The request handler and the store *)

(** X13. A response that is not blocked records the exchange: the history
    of the response's session then ends with the user message, trimmed,
    and the returned reply, and holds at most 20 messages; no other
    session changes. The session is the one the request names (its id
    trimmed) whenever that id is not blank. *)
Theorem chat_records_exchange (req : Req.ChatRequest)
    (st st' : gmap string (list message)) (resp : Resp.ChatResponse) :
  chat req st = (Returns resp, st') ->
  Resp.blocked resp = false ->
  (exists earlier,
      (get_history (Resp.session_id resp) st').1
      = earlier ++ [mk_message "user" (Py.strip (Req.message req));
                    mk_message "assistant" (Resp.response resp)]) /\
  (length (get_history (Resp.session_id resp) st').1 <= 20)%nat /\
  (forall other, other <> Resp.session_id resp ->
                 (get_history other st').1 = (get_history other st).1) /\
  (forall sid, Req.session_id req = Some sid -> ~ blank sid ->
               Resp.session_id resp = Py.strip sid).
Proof.
  intros Hchat Hpass.
  pose proof (chat_cases req st) as Hcases. cbv zeta in Hcases.
  assert (forall s, Py.or_str s "" = s) as Hor by (by intros []).
  assert (request_message req = Py.strip (Req.message req)) as Hmsg
      by (unfold request_message; by rewrite Hor).
  rewrite Hmsg in Hcases.
  assert (forall raw outs,
             resp = Resp.mk raw false outs (request_session_id req) get_groq_model ->
             st' = append_exchange (request_session_id req)
                     (Py.strip (Req.message req)) raw (request_history req st).2 ->
             (exists earlier,
                 (get_history (Resp.session_id resp) st').1
                 = earlier ++ [mk_message "user" (Py.strip (Req.message req));
                               mk_message "assistant" (Resp.response resp)]) /\
             (length (get_history (Resp.session_id resp) st').1 <= 20)%nat /\
             (forall other, other <> Resp.session_id resp ->
                            (get_history other st').1 = (get_history other st).1) /\
             (forall sid, Req.session_id req = Some sid -> ~ blank sid ->
                          Resp.session_id resp = Py.strip sid)) as Hdone.
  { intros raw outs -> ->. cbn [Resp.session_id Resp.response].
    split; [|split; [|split]].
    - rewrite get_history_fst, append_exchange_lookup, decide_True by done.
      apply most_recent_keeps_tail. unfold MAX_HISTORY_MESSAGES. cbn [length]. lia.
    - rewrite get_history_fst, append_exchange_lookup, decide_True by done.
      apply most_recent_length.
    - intros other Hother.
      rewrite !get_history_fst, append_exchange_lookup, decide_False by done.
      apply request_history_same.
    - intros sid Hreq Hsid. unfold request_session_id. rewrite Hreq. cbn [default].
      unfold blank in Hsid.
      destruct sid as [|c sid]; [exfalso; apply Hsid; reflexivity|].
      change (Py.or_str (id (String c sid)) uuid_first) with (String c sid).
      by destruct (Py.strip (String c sid)). }
  destruct (negb (Py.nonempty _)); [congruence|].
  destruct (MAX_MESSAGE_LENGTH <? _); [congruence|].
  destruct (chat_completion _ _ _) as [raw0|e0|]; [|congruence|congruence].
  destruct (Req.skip_guards req).
  - rewrite Hcases in Hchat. injection Hchat as <- <-. by eapply Hdone.
  - destruct Hcases as (guard_results & _ & _ & Hc). rewrite Hc in Hchat.
    destruct (any_block guard_results); injection Hchat as <- <-; [done|].
    by eapply Hdone.
Qed.

(** ** Timeouts and outages, end to end *)



(** X15. The pipeline is open when the guards have no verdict to give:
    with a configuration that has no [guards] entries, or a classifier
    service that fails on every call, no response is ever blocked; without
    [guards] entries the response lists no guard result. *)
Theorem chat_open_without_verdicts (req : Req.ChatRequest)
    (st st' : gmap string (list message)) (resp : Resp.ChatResponse) :
  guards _config = ∅ \/ (forall m s u, exists e, ollama_chat m s u = Raises e) ->
  chat req st = (Returns resp, st') ->
  Resp.blocked resp = false /\
  (guards _config = ∅ -> Resp.guard_results resp = []).
Proof.
  intros Hopen Hchat.
  pose proof (chat_cases req st) as Hcases. cbv zeta in Hcases.
  destruct (negb (Py.nonempty _)); [congruence|].
  destruct (MAX_MESSAGE_LENGTH <? _); [congruence|].
  destruct (chat_completion _ _ _) as [raw0|e0|]; [|congruence|congruence].
  destruct (Req.skip_guards req).
  { rewrite Hcases in Hchat. by injection Hchat as <- <-. }
  destruct Hcases as (guard_results & Hrun & _ & Hc).
  assert (any_block guard_results = false /\
          (guards _config = ∅ -> guard_results = [])) as [Hno Hnil].
  { destruct Hopen as [Hempty|Hdown].
    - assert (guard_results = []) as ->; [|done].
      rewrite run_guards_slots, enabled_tasks_none in Hrun; [by injection Hrun as <-|].
      intros task_name. apply is_guard_enabled_unconfigured.
      by rewrite Hempty, lookup_empty.
    - destruct (classifier_down_flags_everything_run (request_message req)
                  (Py.strip raw0) Hdown) as (results & Hresults & Hnone).
      rewrite Hresults in Hrun. injection Hrun as <-. split; [done|].
      intros Hempty. rewrite run_guards_slots, enabled_tasks_none in Hresults;
        [by injection Hresults as <-|].
      intros task_name. apply is_guard_enabled_unconfigured.
      by rewrite Hempty, lookup_empty. }
  rewrite Hc, Hno in Hchat. injection Hchat as <- <-.
  cbn [Resp.blocked Resp.guard_results]. split; [done|].
  intros Hempty. by rewrite (Hnil Hempty).
Qed.

(** ** The conversation sent to the generation service *)

Lemma history_messages_sendable history : Forall sendable (history_messages history).
Proof.
  induction history as [|h rest IH]; [apply Forall_nil_2|]. cbn [history_messages].
  set (role := default "user" (h !! "role")).
  destruct (String.eqb_spec role "user") as [Hu|Hu];
    [|destruct (String.eqb_spec role "assistant") as [Ha|Ha];
      [|destruct (String.eqb_spec role "system") as [Hs|Hs]]];
    cbn [orb negb]; try done;
    (destruct (Py.or_str (default "" (h !! "content")) "") as [|c content] eqn:Hc;
     cbn [Py.nonempty]; [done|]);
    (apply Forall_cons_2; [|done]); eexists _, _; (split; [reflexivity|]); auto.
Qed.

Lemma history_messages_length history :
  (length (history_messages history) <= length history)%nat.
Proof.
  induction history as [|h rest IH]; [done|]. cbn [history_messages length].
  destruct (negb _); [lia|]. destruct (Py.nonempty _); cbn [length]; lia.
Qed.

(** X16. The generation service is called once, with a conversation it
    accepts: every message has the role system, user or assistant and a
    content that is not empty (history entries with another role or with
    no content are left out); the conversation ends with the user's
    message, trimmed, or "(empty)" when that is blank; it starts with the
    system prompt when there is one; and it has at most two messages more
    than the history. *)
Theorem conversation_is_sendable (user_message system_prompt : string)
    (history : list (gmap string string)) :
  let sent := conversation user_message system_prompt history in
  chat_completion user_message system_prompt history
  = (content ← groq_create get_groq_model sent;
     Returns (Py.strip (Py.or_str (default "" content) ""))) /\
  Forall sendable sent /\
  (exists before last_content,
      sent = before ++ [mk_message "user" last_content] /\
      last_content <> "" /\
      (~ blank user_message -> last_content = Py.strip user_message) /\
      (blank user_message -> last_content = "(empty)")) /\
  (system_prompt <> "" -> head sent = Some (mk_message "system" system_prompt)) /\
  (length sent <= length history + 2)%nat.
Proof.
  intros sent. subst sent. unfold conversation.
  assert (forall s, Py.or_str s "" = s) as Hor by (by intros []).
  rewrite Hor.
  split; [unfold chat_completion; by rewrite Hor|].
  split; [|split; [|split]].
  - rewrite !Forall_app. split; [split|].
    + destruct system_prompt as [|c s]; cbn [Py.nonempty]; [apply Forall_nil_2|].
      apply Forall_cons_2; [|apply Forall_nil_2].
      eexists _, _. split; [reflexivity|]. split; [auto | done].
    + apply history_messages_sendable.
    + apply Forall_cons_2; [|apply Forall_nil_2].
      eexists _, _. split; [reflexivity|]. split; [auto|].
      by destruct (Py.strip user_message).
  - eexists _, _. split; [reflexivity|]. unfold blank.
    destruct (Py.strip user_message) as [|c s]; cbn [Py.or_str Py.nonempty];
      repeat split; done.
  - intros Hsys. by destruct system_prompt.
  - rewrite !length_app. pose proof (history_messages_length history).
    destruct (Py.nonempty system_prompt); cbn [length]; lia.
Qed.

(** ** Presentation *)

Lemma first_prefix_none lowered ps :
  first_prefix lowered ps = None <-> forall p, p ∈ ps -> Py.startswith lowered p = false.
Proof.
  induction ps as [|q ps IH]; cbn [first_prefix].
  - split; [intros _ p Hp; by apply elem_of_nil in Hp | done].
  - destruct (Py.startswith lowered q) eqn:Hq.
    + split; [done|]. intros H. specialize (H q). rewrite Hq in H.
      by discriminate H; left.
    + rewrite IH. split.
      * intros H p Hp. apply elem_of_cons in Hp as [->|Hp]; [done | by apply H].
      * intros H p Hp. apply H. by right.
Qed.

Lemma lower_take n s : Py.lower (Py.take n s) = Py.take n (Py.lower s).
Proof.
  revert s; induction n as [|n IH]; intros [|c s]; try done.
  change (Py.take (S n) (String c s)) with (String c (Py.take n s)).
  cbn [Py.lower]. by rewrite IH.
Qed.

Lemma startswith_take n s p :
  Py.startswith (Py.take n s) p = true -> Py.startswith s p = true.
Proof.
  revert n s; induction p as [|a p IH]; intros n s; [done|].
  destruct n as [|n], s as [|b s]; try done.
  change (Py.take (S n) (String b s)) with (String b (Py.take n s)).
  cbn [Py.startswith]. destruct (Ascii.eqb a b); [apply IH | done].
Qed.

Lemma strip_prefixes_lstrip rounds : forall s,
  Py.lstrip s = s -> Py.lstrip (strip_prefixes rounds s) = strip_prefixes rounds s.
Proof.
  induction rounds as [|rounds IH]; intros s Hs; [done|]. cbn [strip_prefixes].
  destruct (Py.nonempty s); [|done].
  destruct (first_prefix _ _) as [p|]; [|done].
  apply IH. unfold Py.strip. by rewrite <- lstrip_rstrip, lstrip_idem.
Qed.

Lemma lstrip_take n s : Py.lstrip s = s -> Py.lstrip (Py.take n s) = Py.take n s.
Proof.
  destruct n as [|n], s as [|c s]; try done.
  change (Py.take (S n) (String c s)) with (String c (Py.take n s)).
  cbn [Py.lstrip]. destruct (Py.is_space c) eqn:Hc; [|done].
  intros H. exfalso.
  pose proof (lstrip_len s) as Hlen. rewrite H in Hlen. unfold Py.len in Hlen.
  simpl in Hlen. lia.
Qed.

(** X17. The reason shown for a guard result never starts with a verdict
    or reason label ("pass.", "flag:", "reason:" and the like, in any
    case, however many were stacked) and has no leading whitespace. A
    reason that has neither to begin with, is trimmed and has at most 120
    characters is shown as it is. *)
Theorem normalize_guard_reason_strips_labels (reason_ : string) :
  (forall p, p ∈ prefixes ->
             Py.startswith (Py.lower (_normalize_guard_reason reason_)) p = false) /\
  Py.lstrip (_normalize_guard_reason reason_) = _normalize_guard_reason reason_ /\
  (first_prefix (Py.lower reason_) prefixes = None ->
   Py.strip reason_ = reason_ -> (Py.len reason_ <= 120)%nat ->
   _normalize_guard_reason reason_ = reason_).
Proof.
  split; [|split].
  - apply first_prefix_none. unfold _normalize_guard_reason.
    destruct (negb (Py.nonempty reason_)); [done|].
    set (s := Py.strip reason_).
    destruct (strip_prefixes_exits (Py.len s) s) as [Hempty|Hnone]; [lia| |].
    + destruct (strip_prefixes (Py.len s) s); [done | discriminate Hempty].
    + assert (first_prefix (Py.lower (Py.take 120 (strip_prefixes (Py.len s) s)))
                prefixes = None) as Htake.
      { apply first_prefix_none. intros p Hp.
        destruct (Py.startswith _ p) eqn:Hstart; [|done].
        rewrite lower_take in Hstart. apply startswith_take in Hstart.
        rewrite first_prefix_none in Hnone. by rewrite (Hnone p Hp) in Hstart. }
      by destruct (_ <? _)%nat.
  - unfold _normalize_guard_reason.
    destruct (negb (Py.nonempty reason_)); [done|].
    assert (Py.lstrip (strip_prefixes (Py.len (Py.strip reason_)) (Py.strip reason_))
            = strip_prefixes (Py.len (Py.strip reason_)) (Py.strip reason_)) as Hl.
    { apply strip_prefixes_lstrip. unfold Py.strip.
      by rewrite <- lstrip_rstrip, lstrip_idem. }
    destruct (_ <? _)%nat; [by apply lstrip_take | done].
  - intros Hnone Hstrip Hlen. unfold _normalize_guard_reason.
    destruct reason_ as [|c r]; [done|]. cbn [Py.nonempty negb]. rewrite Hstrip.
    assert (strip_prefixes (Py.len (String c r)) (String c r) = String c r) as ->.
    { unfold Py.len. cbn [String.length strip_prefixes Py.nonempty]. by rewrite Hnone. }
    destruct (Nat.ltb_spec 120 (Py.len (String c r))); [lia | done].
Qed.

(** ** Configuration *)


(** ** What the response reports about the guards *)

Lemma get_guard_model_trimmed guard_name :
  Py.strip (get_guard_model guard_name) = get_guard_model guard_name.
Proof.
  unfold get_guard_model. destruct (negb _); [done | apply strip_idem].
Qed.

Lemma guard_result_out_pipeline um mr task_name fn :
  (task_name, fn) ∈ GUARD_FNS ->
  let g := guard_result_out (task_slot um mr (task_name, fn, get_guard_model task_name)) in
  Out.name g = task_name /\
  (Out.verdict g = "pass" \/ Out.verdict g = "flag" \/ Out.verdict g = "block") /\
  (Out.verdict g = "block" -> task_name = "safety" \/ task_name = "topic") /\
  Out.model g = Py.take 100 (get_guard_model task_name) /\
  (Py.len (Out.reason g) <= 120)%nat.
Proof.
  intros Hin g. subst g.
  destruct (pipeline_slot um mr task_name fn Hin (get_guard_model task_name))
    as (Hn & Hm & Hw & Hb).
  unfold guard_result_out. cbn [Out.name Out.verdict Out.model Out.reason].
  rewrite Hn, Hm.
  assert (forall s, Py.or_str s "" = s) as Hor by (by intros []).
  assert (Py.strip (Py.or_str task_name "guard") = task_name) as ->.
  { unfold GUARD_FNS in Hin.
    repeat (apply elem_of_cons in Hin as [[= -> _]|Hin]; [reflexivity|]).
    by apply elem_of_nil in Hin. }
  assert (Py.or_str (Py.strip (Py.or_str (verdict (task_slot um mr
             (task_name, fn, get_guard_model task_name))) "flag")) "flag"
          = verdict (task_slot um mr (task_name, fn, get_guard_model task_name))) as ->.
  { destruct (is_verdict_word_cases _ Hw) as [->| [->| ->]]; reflexivity. }
  split; [done|]. split; [by apply is_verdict_word_cases|]. split; [done|].
  split; [by rewrite Hor, get_guard_model_trimmed|].
  apply normalize_guard_reason_len.
Qed.

(** X19. What a response lists about the guards. With [skip_guards] the
    list is empty and the response is not blocked. Otherwise there is one
    entry per enabled guard, named after it, in the order safety, topic,
    format, pii; each gives a verdict pass, flag or block, a block only
    for safety or topic, the model configured for the guard (its first
    100 characters) and a reason of at most 120 characters. *)
Theorem chat_reports_every_enabled_guard (req : Req.ChatRequest)
    (st st' : gmap string (list message)) (resp : Resp.ChatResponse) :
  chat req st = (Returns resp, st') ->
  if Req.skip_guards req
  then Resp.guard_results resp = [] /\ Resp.blocked resp = false
  else
    map Out.name (Resp.guard_results resp)
    = filter (fun n => is_guard_enabled n = true) ["safety"; "topic"; "format"; "pii"] /\
    Forall (fun g =>
              (Out.verdict g = "pass" \/ Out.verdict g = "flag" \/ Out.verdict g = "block") /\
              (Out.verdict g = "block" -> Out.name g = "safety" \/ Out.name g = "topic") /\
              Out.model g = Py.take 100 (get_guard_model (Out.name g)) /\
              (Py.len (Out.reason g) <= 120)%nat)
           (Resp.guard_results resp).
Proof.
  intros Hchat.
  pose proof (chat_cases req st) as Hcases. cbv zeta in Hcases.
  destruct (negb (Py.nonempty _)); [congruence|].
  destruct (MAX_MESSAGE_LENGTH <? _); [congruence|].
  destruct (chat_completion _ _ _) as [raw0|e0|]; [|congruence|congruence].
  destruct (Req.skip_guards req).
  { rewrite Hcases in Hchat. by injection Hchat as <- <-. }
  destruct Hcases as (guard_results & Hrun & _ & Hc).
  rewrite run_guards_slots in Hrun. injection Hrun as <-.
  set (um := Py.strip (request_message req)) in *.
  set (mr := Py.strip (Py.strip raw0)) in *.
  assert (Resp.guard_results resp
          = _guard_results_out (map (task_slot um mr) (enabled_tasks GUARD_FNS))) as ->.
  { rewrite Hc in Hchat. by destruct (any_block _); injection Hchat as <- <-. }
  clear Hc Hchat. unfold _guard_results_out.
  change ["safety"; "topic"; "format"; "pii"] with (map fst GUARD_FNS).
  rewrite <- enabled_tasks_names.
  pose proof (enabled_tasks_from GUARD_FNS) as Hfrom.
  induction (enabled_tasks GUARD_FNS) as [|[[n f] m] tasks IH];
    [split; [done | apply Forall_nil_2]|].
  destruct (Hfrom n f m) as (Hin & _ & ->); [left|].
  destruct (guard_result_out_pipeline um mr n f Hin) as (Hn & Hv & Hb & Hm & Hr).
  destruct IH as [IHn IHall]; [intros n' f' m' H; apply Hfrom; by right|].
  cbn [map fst]. split.
  - by rewrite Hn, IHn.
  - apply Forall_cons_2; [|done]. by rewrite Hn.
Qed.

(** ** The health report *)

Lemma startswith_refl s : Py.startswith s s = true.
Proof. induction s as [|c s IH]; [done|]. cbn [Py.startswith]. by rewrite Ascii.eqb_refl. Qed.

Lemma contains_refl s : Py.contains s s = true.
Proof. destruct s; cbn [Py.contains]; by rewrite startswith_refl. Qed.

Lemma model_listed_member model_ ollama_models :
  model_ ∈ ollama_models -> model_listed model_ ollama_models = true.
Proof.
  intros Hin. unfold model_listed. apply existsb_exists. exists model_.
  split; [by apply list_elem_of_In|]. by rewrite contains_refl.
Qed.

Lemma guard_status_names (available : string -> bool) names :
  map fst (omap (M:=list)
             (fun name_ => if is_guard_enabled name_
                           then Some (name_, available name_) else None) names)
  = filter (fun n => is_guard_enabled n = true) names.
Proof.
  induction names as [|n names IH]; [done|]. cbn [omap list_omap].
  rewrite filter_cons. destruct (is_guard_enabled n) eqn:Hn.
  - rewrite decide_True by done. cbn [map fst]. by rewrite IH.
  - by rewrite decide_False by (by intros ?).
Qed.

(** X20. The health report. Its status is "ok" exactly when the Groq API
    key is set to a text that is not empty and the classifier service
    answered the first listing call, and "degraded" otherwise. When the
    service did not answer, no model and no guard is reported; when it
    did, the report has one availability entry per enabled guard, in the
    order safety, topic, format, pii. A guard whose configured model is
    among the listed model names is reported available, and with no
    model listed every guard is reported unavailable. *)
Theorem health_report (GROQ_API_KEY : option string)
    (first_list second_list : ollama_listing) :
  let report := health GROQ_API_KEY first_list second_list in
  (Health.status report = "ok"
   <-> (exists key, GROQ_API_KEY = Some key /\ key <> "") /\ first_list <> None) /\
  (Health.status report <> "ok" -> Health.status report = "degraded") /\
  (first_list = None ->
   Health.ollama_available report = false /\ Health.ollama_models report = [] /\
   Health.guard_models_available report = []) /\
  (first_list <> None ->
   Health.ollama_available report = true /\
   Health.ollama_models report = _ollama_models second_list /\
   map fst (Health.guard_models_available report)
   = filter (fun n => is_guard_enabled n = true) ["safety"; "topic"; "format"; "pii"]) /\
  (forall name_ available,
      (name_, available) ∈ Health.guard_models_available report ->
      (get_guard_model name_ ∈ Health.ollama_models report -> available = true) /\
      (Health.ollama_models report = [] -> available = false)).
Proof.
  intros report. subst report. unfold health.
  split; [|split; [|split; [|split]]].
  - destruct GROQ_API_KEY as [[|c key]|], first_list as [models|];
      cbn [default Py.nonempty andb Health.status]; split; try done.
    + by intros [(key & [= <-] & Hkey) _].
    + by intros [_ H].
    + intros _. split; [by eexists | done].
    + by intros [_ H].
    + by intros [(key & [=] & _) _].
    + by intros [(key & [=] & _) _].
  - destruct (Py.nonempty _), first_list; cbn [andb Health.status]; done.
  - by intros ->.
  - destruct first_list as [models|]; [intros _ | done].
    cbn [Health.ollama_available Health.ollama_models Health.guard_models_available].
    split; [done|]. split; [done|]. apply guard_status_names.
  - intros name_ available.
    destruct first_list as [models|];
      cbn [Health.ollama_models Health.guard_models_available];
      [|intros H; by apply elem_of_nil in H].
    intros Hin. apply list_elem_of_omap in Hin as (n & _ & Hn).
    destruct (is_guard_enabled n); [|done]. injection Hn as <- <-.
    split; [apply model_listed_member|]. by intros ->.
Qed.

End Engine.

(* ===================================================================== *)
(** * Properties across services and configurations *)
(* ===================================================================== *)

Lemma clean_or_default s d : clean d -> clean (Py.or_str (Py.strip s) d).
Proof.
  intros Hd. unfold Py.or_str. destruct (Py.strip s) as [|c t] eqn:Hs; [done|].
  cbn [Py.nonempty]. split; [done|]. rewrite <- Hs. apply strip_idem.
Qed.

Lemma call_ollama_guard_clean json_loads
    (ollama_chat ollama_chat' : string -> string -> string -> outcome (option string)) :
  (forall m s u, clean m -> clean s -> clean u -> ollama_chat m s u = ollama_chat' m s u) ->
  forall guard_name system_prompt user_content model_,
    call_ollama_guard json_loads ollama_chat guard_name system_prompt user_content model_
    = call_ollama_guard json_loads ollama_chat' guard_name system_prompt user_content model_.
Proof.
  intros Hsame guard_name system_prompt user_content model_.
  unfold call_ollama_guard, _safe_str.
  rewrite Hsame; [done|apply clean_or_default; by vm_compute..].
Qed.

Lemma run_guards_same_answers _config um mr (fns fns' : list (string * guard_fn)) :
  Forall2 (fun a b => a.1 = b.1 /\ forall x y z, a.2 x y z = b.2 x y z) fns fns' ->
  run_guards _config um mr fns = run_guards _config um mr fns'.
Proof.
  intros Hsame. rewrite !run_guards_slots. f_equal.
  induction Hsame as [|[n f] [n' f'] fns fns' [Hn Hf] _ IH]; [done|].
  cbn [fst snd] in Hn, Hf. subst n'. cbn [enabled_tasks].
  destruct (negb _); [done|]. cbn [map]. rewrite IH. f_equal.
  unfold task_slot. by rewrite Hf.
Qed.

Lemma pipeline_same_answers json_loads json_loads'
    (ollama_chat ollama_chat' : string -> string -> string -> outcome (option string)) :
  (forall g s u m, call_ollama_guard json_loads ollama_chat g s u m
                   = call_ollama_guard json_loads' ollama_chat' g s u m) ->
  Forall2 (fun a b : string * guard_fn => a.1 = b.1 /\ forall x y z, a.2 x y z = b.2 x y z)
    (GUARD_FNS json_loads ollama_chat) (GUARD_FNS json_loads' ollama_chat').
Proof.
  intros Hcall. unfold GUARD_FNS.
  do 4 (constructor;
        [split; [done|]; intros x y z; cbn [snd];
         unfold safety_guard, topic_guard, format_guard, pii_guard; by rewrite Hcall|]).
  constructor.
Qed.

(** X21. The classifier service is only ever asked about clean text: the
    model name, the system prompt and the content given to it are never
    empty and never carry surrounding whitespace. Stated as independence:
    two classifier services that agree on such arguments give the same
    result of a guard call and the same outcome of the request handler. *)
Theorem classifier_sees_only_clean_text json_loads
    (ollama_chat ollama_chat' : string -> string -> string -> outcome (option string))
    groq_create _config groq_model uuid_first uuid_second :
  (forall m s u, clean m -> clean s -> clean u -> ollama_chat m s u = ollama_chat' m s u) ->
  (forall guard_name system_prompt user_content model_,
      call_ollama_guard json_loads ollama_chat guard_name system_prompt user_content model_
      = call_ollama_guard json_loads ollama_chat' guard_name system_prompt user_content
          model_) /\
  (forall req st,
      chat json_loads ollama_chat groq_create _config groq_model uuid_first uuid_second
        req st
      = chat json_loads ollama_chat' groq_create _config groq_model uuid_first uuid_second
          req st).
Proof.
  intros Hsame. pose proof (call_ollama_guard_clean json_loads _ _ Hsame) as Hcall.
  split; [exact Hcall|]. intros req st.
  pose proof (chat_cases json_loads ollama_chat groq_create _config groq_model
                uuid_first uuid_second req st) as H1.
  pose proof (chat_cases json_loads ollama_chat' groq_create _config groq_model
                uuid_first uuid_second req st) as H2.
  cbv zeta in H1, H2.
  destruct (negb (Py.nonempty _)); [congruence|].
  destruct (MAX_MESSAGE_LENGTH <? _); [congruence|].
  destruct (chat_completion _ _ _ _ _) as [raw0|e0|]; [|congruence|congruence].
  destruct (Req.skip_guards req); [congruence|].
  destruct H1 as (results & Hrun & _ & ->). destruct H2 as (results' & Hrun' & _ & ->).
  rewrite (run_guards_same_answers _ _ _ _ _
             (pipeline_same_answers _ _ _ _ Hcall)) in Hrun.
  rewrite Hrun in Hrun'. by injection Hrun' as <-.
Qed.

(** X22. With [skip_guards] the request handler does not consult the
    guards at all: its outcome and the store it leaves are the same
    whatever the classifier service, the JSON decoder and the guard
    configuration are. *)
Theorem skip_guards_bypasses_classifier json_loads json_loads'
    (ollama_chat ollama_chat' : string -> string -> string -> outcome (option string))
    groq_create (_config _config' : Config) groq_model uuid_first uuid_second
    (req : Req.ChatRequest) (st : gmap string (list message)) :
  Req.skip_guards req = true ->
  chat json_loads ollama_chat groq_create _config groq_model uuid_first uuid_second req st
  = chat json_loads' ollama_chat' groq_create _config' groq_model uuid_first uuid_second
      req st.
Proof.
  intros Hskip.
  pose proof (chat_cases json_loads ollama_chat groq_create _config groq_model
                uuid_first uuid_second req st) as H1.
  pose proof (chat_cases json_loads' ollama_chat' groq_create _config' groq_model
                uuid_first uuid_second req st) as H2.
  cbv zeta in H1, H2. rewrite Hskip in H1, H2.
  destruct (negb (Py.nonempty _)); [congruence|].
  destruct (MAX_MESSAGE_LENGTH <? _); [congruence|].
  destruct (chat_completion _ _ _ _ _) as [raw0|e0|]; congruence.
Qed.

(** X23. How the generation model is chosen: MODEL_NAME when it is set to
    more than whitespace, else GROQ_MODEL likewise, else the model of
    config.yaml, else "llama-3.3-70b-versatile"; the choice is trimmed.
    The result is empty in exactly one case: both variables are unset or
    blank and config.yaml gives a model that consists of whitespace. *)
Theorem groq_model_resolution (MODEL_NAME GROQ_MODEL config_model : option string) :
  let chosen := Env.get_groq_model MODEL_NAME GROQ_MODEL config_model in
  let name_env := default "" MODEL_NAME in
  let groq_env := default "" GROQ_MODEL in
  (~ blank name_env -> chosen = Py.strip name_env) /\
  (blank name_env -> ~ blank groq_env -> chosen = Py.strip groq_env) /\
  (blank name_env -> blank groq_env ->
   chosen = match config_model with
            | Some (String c m) => Py.strip (String c m)
            | _ => "llama-3.3-70b-versatile"
            end) /\
  Py.strip chosen = chosen /\
  (chosen = "" <->
   blank name_env /\ blank groq_env /\
   exists m, config_model = Some m /\ m <> "" /\ blank m).
Proof.
  intros chosen name_env groq_env. subst chosen. unfold Env.get_groq_model.
  fold name_env groq_env. unfold blank.
  assert (forall s, Py.or_str s "" = s) as Hor by (by intros []).
  rewrite !Hor.
  assert (forall s, Py.strip s <> "" -> Py.strip (Py.strip s) <> "") as Hne
      by (intros s; by rewrite strip_idem).
  destruct (Py.strip name_env) as [|c1 s1] eqn:H1.
  2:{ cbn [Py.or_str Py.nonempty].
      assert (Py.strip (String c1 s1) = String c1 s1) as Hs
          by (rewrite <- H1; apply strip_idem).
      rewrite !Hs.
      split; [done|]. split; [done|]. split; [done|]. split; [done|].
      split; [done | by intros [? _]]. }
  destruct (Py.strip groq_env) as [|c2 s2] eqn:H2.
  2:{ cbn [Py.or_str Py.nonempty].
      assert (Py.strip (String c2 s2) = String c2 s2) as Hs
          by (rewrite <- H2; apply strip_idem).
      rewrite !Hs.
      split; [done|]. split; [done|]. split; [done|]. split; [done|].
      split; [done | by intros (_ & ? & _)]. }
  cbn [Py.or_str Py.nonempty].
  destruct config_model as [[|c m]|]; cbn [default Py.nonempty].
  - split; [done|]. split; [done|]. split; [done|]. split; [done|].
    split; [done|]. by intros (_ & _ & m & [= <-] & Hm & _).
  - split; [done|]. split; [done|]. split; [done|]. split; [apply strip_idem|].
    split.
    + intros Hempty. split; [done|]. split; [done|]. by exists (String c m).
    + by intros (_ & _ & m' & [= <-] & _ & Hblank).
  - split; [done|]. split; [done|]. split; [done|]. split; [done|].
    split; [done|]. by intros (_ & _ & m & [=] & _).
Qed.

(* ===================================================================== *)
(** * Closed examples *)
(* ===================================================================== *)

(** The aggregation on two results that do not block. *)
Lemma any_block_first_block_witness :
  Forall (fun r => verdict r = "pass" \/ verdict r = "flag")
    [mkGuardResult "safety" "pass" "" "phi3";
     mkGuardResult "topic" "flag" "Timeout" "phi3"] /\
  any_block [mkGuardResult "safety" "pass" "" "phi3";
             mkGuardResult "topic" "flag" "Timeout" "phi3"] = false.
Proof.
  assert (Forall (fun r => verdict r = "pass" \/ verdict r = "flag")
            [mkGuardResult "safety" "pass" "" "phi3";
             mkGuardResult "topic" "flag" "Timeout" "phi3"]) as Hall.
  { apply Forall_cons_2; [by left|]. apply Forall_cons_2; [by right|].
    apply Forall_nil_2. }
  split; [exact Hall|].
  exact (proj1 (proj2 (proj2 (proj2 (any_block_first_block _))) Hall)).
Defined.


(** The same run under the default policy: the safety slot is flag with
    reason "Timeout" and nothing blocks. *)
Example safety_timeout_flag_policy :
  run_guards all_guards_on "Hello" "Hi there"
    [("safety", slow_check); ("topic", passing_check "topic");
     ("format", passing_check "format")]
  = Returns [mkGuardResult "safety" "flag" "Timeout" "phi3";
             mkGuardResult "topic" "pass" "" "phi3";
             mkGuardResult "format" "pass" "" "llama3.2"].
Proof. reflexivity. Qed.

(** A classifier made to answer "block", with a reason on the next line:
    both guards return flag. *)
Lemma format_and_pii_never_block_witness :
  format_guard Json.loads (ollama_says ("block" +:+ NL +:+ "reason"))
    "Hello" "Hi there" "phi3"
  = Returns (mkGuardResult "format" "flag" "reason" "") /\
  pii_guard Json.loads (ollama_says ("block" +:+ NL +:+ "reason"))
    "Hello" "Hi there" "phi3"
  = Returns (mkGuardResult "pii" "flag" "reason" "").
Proof.
  pose proof (format_and_pii_never_block Json.loads
                (ollama_says ("block" +:+ NL +:+ "reason")) all_guards_on
                "Hello" "Hi there" "phi3") as (_ & _ & _ & Hformat & Hpii & _).
  split.
  - exact (Hformat (mkGuardResult "format" "block" "reason" "") eq_refl eq_refl).
  - exact (Hpii (mkGuardResult "pii" "block" "reason" "") eq_refl eq_refl).
Defined.

(** The normalizer on the empty text, on blank text, on text with
    malformed JSON and on text of several paragraphs. *)
Example parse_verdict_examples :
  _parse_verdict Json.loads "" = ("pass", "") /\
  _parse_verdict Json.loads ("   " +:+ NL +:+ "  ") = ("pass", "") /\
  _parse_verdict Json.loads ("{" +:+ DQ +:+ "verdict" +:+ DQ +:+ ": flag,,}")
  = ("flag", "{" +:+ DQ +:+ "verdict" +:+ DQ +:+ ": flag,,}") /\
  _parse_verdict Json.loads
    ("The reply is polite." +:+ NL +:+ NL +:+ "It stays on topic." +:+ NL +:+ NL
     +:+ "Nothing to report.")
  = ("pass", "The reply is polite.").
Proof. repeat split; reflexivity. Qed.



(** Four configured checks of which one is not enabled: three results, in
    the order of the tasks; and a run with no enabled task. *)
Lemma run_guards_one_result_per_task_witness :
  run_guards all_guards_on " Hello " "Hi there" mixed_checks
  = Returns [mkGuardResult "safety" "flag" "Timeout" "phi3";
             mkGuardResult "topic" "flag" "Guard error: connection refused" "phi3";
             mkGuardResult "pii" "pass" "" "phi3"] /\
  run_guards all_guards_on "Hello" "Hi there" [("audit", passing_check "audit")]
  = Returns [].
Proof.
  split.
  - destruct (run_guards_one_result_per_task all_guards_on " Hello " "Hi there"
                mixed_checks) as (results & -> & _ & Hlen & Hslots & _).
    f_equal.
    destruct (Hslots 0%nat _ _ _ eq_refl) as (r0 & H0 & _ & ->).
    destruct (Hslots 1%nat _ _ _ eq_refl) as (r1 & H1 & _ & ->).
    destruct (Hslots 2%nat _ _ _ eq_refl) as (r2 & H2 & _ & ->).
    destruct results as [|x0 [|x1 [|x2 [|x3 rest]]]]; try discriminate Hlen.
    injection H0 as ->. injection H1 as ->. injection H2 as ->. reflexivity.
  - destruct (run_guards_one_result_per_task all_guards_on "Hello" "Hi there"
                [("audit", passing_check "audit")])
      as (results & -> & Hempty & _).
    f_equal. exact (Hempty eq_refl).
Defined.

(** A check that raises, and a classifier call that raises. *)
Lemma task_errors_become_flags_witness :
  (exists results,
      run_guards all_guards_on "Hello" "Hi there" mixed_checks = Returns results /\
      results !! 1%nat
      = Some (mkGuardResult "topic" "flag" "Guard error: connection refused" "phi3")) /\
  call_ollama_guard Json.loads (fun _ _ _ => Raises (Exception "connection refused"))
    "safety" "" "" "phi3"
  = Returns (mkGuardResult "safety" "flag" "Ollama error: connection refused" "").
Proof.
  destruct (task_errors_become_flags Json.loads
              (fun _ _ _ => Raises (Exception "connection refused")) all_guards_on
              "Hello" "Hi there" mixed_checks) as [(results & Hrun & Hslots) Hguard].
  split.
  - exists results. split; [exact Hrun|].
    exact (Hslots 1%nat "topic" (failing_check "connection refused") "phi3"
             (Exception "connection refused") eq_refl eq_refl).
  - exact (Hguard "safety" "" "" "phi3" (Exception "connection refused") eq_refl).
Defined.



(** Eleven exchanges in one session: 20 messages remain, the 22 appended
    without the oldest two. *)
Lemma history_keeps_last_20_witness :
  length (get_history "s1"
            (run_appends (map (fun '(u, a) => ("s1", u, a)) eleven_exchanges) ∅)).1
  = 20%nat /\
  (get_history "s1"
     (run_appends (map (fun '(u, a) => ("s1", u, a)) eleven_exchanges) ∅)).1
  = drop 2 (flat_map (fun '(u, a) => [mk_message "user" u; mk_message "assistant" a])
              eleven_exchanges).
Proof.
  exact (proj2 (proj2 (proj2 (history_keeps_last_20
                                (map (fun '(u, a) => ("s1", u, a)) eleven_exchanges)
                                "s1")))
           eleven_exchanges eq_refl eq_refl).
Defined.

(** A request whose reply every classifier call rates "block": the answer
    is the blocked notice, and no session's history changes (the new
    session is created empty). *)
Lemma blocked_chat_keeps_history_witness :
  chat Json.loads (ollama_says ("block" +:+ NL +:+ "unsafe"))
    (groq_says "Hi there, how can I help?") all_guards_on
    "llama-3.3-70b-versatile" "uuid-1" "uuid-2" hello_request earlier_store
  = (Returns blocked_hello_response, <["s1" := []]> earlier_store) /\
  forall sid,
    (get_history sid (<["s1" := []]> earlier_store)).1
    = (get_history sid earlier_store).1.
Proof.
  assert (chat Json.loads (ollama_says ("block" +:+ NL +:+ "unsafe"))
            (groq_says "Hi there, how can I help?") all_guards_on
            "llama-3.3-70b-versatile" "uuid-1" "uuid-2" hello_request earlier_store
          = (Returns blocked_hello_response, <["s1" := []]> earlier_store)) as Hchat
      by (vm_compute; reflexivity).
  split; [exact Hchat|].
  exact (proj1 (blocked_chat_keeps_history _ _ _ _ _ _ _ _ _ _ _ Hchat)).
Defined.

(** End to end: the message "Hello", the reply "Hi there, how can I help?",
    every guard passes; the reply goes through unchanged and the exchange
    is appended to the session. *)
Example chat_passes_reply_through :
  chat Json.loads (ollama_says "pass") (groq_says "Hi there, how can I help?")
    all_guards_on "llama-3.3-70b-versatile" "uuid-1" "uuid-2"
    hello_request earlier_store
  = (Returns passed_hello_response,
     <["s1" := [mk_message "user" "Hello";
                mk_message "assistant" "Hi there, how can I help?"]]> earlier_store).
Proof. vm_compute. reflexivity. Qed.

(** ** Closed instances of the further properties *)

Lemma parse_verdict_ignores_outer_whitespace_witness :
  _parse_verdict Json.loads ("  " +:+ ("flag" +:+ NL +:+ "odd layout") +:+ (" " +:+ NL))
  = _parse_verdict Json.loads ("flag" +:+ NL +:+ "odd layout").
Proof.
  exact (parse_verdict_ignores_outer_whitespace Json.loads
           "  " ("flag" +:+ NL +:+ "odd layout") (" " +:+ NL) eq_refl eq_refl).
Defined.

Lemma parse_verdict_reads_prompt_format_witness :
  _parse_verdict Json.loads ("block" +:+ NL +:+ " harmful content ")
  = ("block", "harmful content").
Proof.
  exact (parse_verdict_reads_prompt_format Json.loads "block" " harmful content " eq_refl).
Defined.


Lemma classifier_down_flags_everything_witness :
  exists results,
    run_guards all_guards_on "Hello" "Hi there" (GUARD_FNS Json.loads ollama_down)
    = Returns results /\
    any_block results = false.
Proof.
  destruct (classifier_down_flags_everything Json.loads ollama_down all_guards_on
              "Hello" "Hi there"
              (fun _ _ _ => ex_intro _ (Exception "connection refused") eq_refl))
    as (results & Hrun & _ & Hopen & _).
  exists results. split; [exact Hrun | exact Hopen].
Defined.

Lemma chat_error_responses_witness :
  chat Json.loads (ollama_says "pass") groq_rejects_key all_guards_on
    "llama-3.3-70b-versatile" "uuid-1" "uuid-2" hello_request earlier_store
  = (Raises (HTTPException 401
       "Invalid or expired Groq API key. Get a new key at https://console.groq.com/keys and set GROQ_API_KEY in your .env file, then restart the app."),
     <["s1" := []]> earlier_store) /\
  forall sid,
    (get_history sid (<["s1" := []]> earlier_store)).1
    = (get_history sid earlier_store).1.
Proof.
  assert (chat Json.loads (ollama_says "pass") groq_rejects_key all_guards_on
            "llama-3.3-70b-versatile" "uuid-1" "uuid-2" hello_request earlier_store
          = (Raises (HTTPException 401
               "Invalid or expired Groq API key. Get a new key at https://console.groq.com/keys and set GROQ_API_KEY in your .env file, then restart the app."),
             <["s1" := []]> earlier_store)) as Hchat
      by (vm_compute; reflexivity).
  split; [exact Hchat|].
  exact (proj1 (chat_error_responses _ _ _ _ _ _ _ _ _ _ _ Hchat)).
Defined.


Lemma chat_records_exchange_witness :
  chat Json.loads (ollama_says "pass") (groq_says "Hi there, how can I help?")
    all_guards_on "llama-3.3-70b-versatile" "uuid-1" "uuid-2"
    hello_request earlier_store
  = (Returns passed_hello_response, hello_store) /\
  (exists earlier,
      (get_history "s1" hello_store).1
      = earlier ++ [mk_message "user" "Hello";
                    mk_message "assistant" "Hi there, how can I help?"]) /\
  (forall other, other <> "s1" ->
                 (get_history other hello_store).1 = (get_history other earlier_store).1).
Proof.
  assert (chat Json.loads (ollama_says "pass") (groq_says "Hi there, how can I help?")
            all_guards_on "llama-3.3-70b-versatile" "uuid-1" "uuid-2"
            hello_request earlier_store
          = (Returns passed_hello_response, hello_store)) as Hchat
      by (vm_compute; reflexivity).
  split; [exact Hchat|].
  destruct (chat_records_exchange _ _ _ _ _ _ _ _ _ _ _ Hchat eq_refl)
    as (Hlast & _ & Hothers & _).
  split; [exact Hlast | exact Hothers].
Defined.


Lemma chat_open_without_verdicts_witness :
  chat Json.loads (ollama_says "block") (groq_says "Hi there, how can I help?")
    no_guards "llama-3.3-70b-versatile" "uuid-1" "uuid-2" hello_request earlier_store
  = (Returns (Resp.mk "Hi there, how can I help?" false [] "s1"
                "llama-3.3-70b-versatile"),
     hello_store) /\
  Resp.guard_results (Resp.mk "Hi there, how can I help?" false [] "s1"
                        "llama-3.3-70b-versatile") = [].
Proof.
  assert (chat Json.loads (ollama_says "block") (groq_says "Hi there, how can I help?")
            no_guards "llama-3.3-70b-versatile" "uuid-1" "uuid-2"
            hello_request earlier_store
          = (Returns (Resp.mk "Hi there, how can I help?" false [] "s1"
                        "llama-3.3-70b-versatile"),
             hello_store)) as Hchat
      by (vm_compute; reflexivity).
  split; [exact Hchat|].
  exact (proj2 (chat_open_without_verdicts Json.loads (ollama_says "block")
                  (groq_says "Hi there, how can I help?") no_guards
                  "llama-3.3-70b-versatile" "uuid-1" "uuid-2" hello_request
                  earlier_store _ _ (or_introl eq_refl) Hchat) eq_refl).
Defined.

Lemma chat_reports_every_enabled_guard_witness :
  chat Json.loads (ollama_says "pass") (groq_says "Hi there, how can I help?")
    all_guards_on "llama-3.3-70b-versatile" "uuid-1" "uuid-2"
    hello_request earlier_store
  = (Returns passed_hello_response, hello_store) /\
  map Out.name (Resp.guard_results passed_hello_response)
  = filter (fun n => is_guard_enabled all_guards_on n = true)
      ["safety"; "topic"; "format"; "pii"].
Proof.
  assert (chat Json.loads (ollama_says "pass") (groq_says "Hi there, how can I help?")
            all_guards_on "llama-3.3-70b-versatile" "uuid-1" "uuid-2"
            hello_request earlier_store
          = (Returns passed_hello_response, hello_store)) as Hchat
      by (vm_compute; reflexivity).
  split; [exact Hchat|].
  exact (proj1 (chat_reports_every_enabled_guard _ _ _ _ _ _ _ _ _ _ _ Hchat)).
Defined.

Lemma classifier_sees_only_clean_text_witness :
  chat Json.loads (ollama_says "pass") (groq_says "Hi there, how can I help?")
    all_guards_on "llama-3.3-70b-versatile" "uuid-1" "uuid-2"
    hello_request earlier_store
  = chat Json.loads strict_ollama (groq_says "Hi there, how can I help?")
      all_guards_on "llama-3.3-70b-versatile" "uuid-1" "uuid-2"
      hello_request earlier_store.
Proof.
  refine (proj2 (classifier_sees_only_clean_text Json.loads (ollama_says "pass")
                   strict_ollama (groq_says "Hi there, how can I help?") all_guards_on
                   "llama-3.3-70b-versatile" "uuid-1" "uuid-2" _)
            hello_request earlier_store).
  intros model_ system_prompt user_content [Hmodel _] _ _.
  destruct model_ as [|c model_]; [destruct (Hmodel eq_refl) | reflexivity].
Defined.

Lemma skip_guards_bypasses_classifier_witness :
  chat Json.loads (ollama_says "block") (groq_says "Hi there, how can I help?")
    all_guards_on "llama-3.3-70b-versatile" "uuid-1" "uuid-2"
    unguarded_hello_request earlier_store
  = chat (fun _ => None) ollama_down (groq_says "Hi there, how can I help?")
      no_guards "llama-3.3-70b-versatile" "uuid-1" "uuid-2"
      unguarded_hello_request earlier_store.
Proof.
  exact (skip_guards_bypasses_classifier Json.loads (fun _ => None)
           (ollama_says "block") ollama_down (groq_says "Hi there, how can I help?")
           all_guards_on no_guards "llama-3.3-70b-versatile" "uuid-1" "uuid-2"
           unguarded_hello_request earlier_store eq_refl).
Defined.

(** The one way to an empty generation model name, and the usual ways to
    a name. *)
Example groq_model_examples :
  Env.get_groq_model None (Some "  ") (Some " ") = "" /\
  Env.get_groq_model (Some " mixtral-8x7b ") (Some "gemma") None = "mixtral-8x7b" /\
  Env.get_groq_model None None None = "llama-3.3-70b-versatile".
Proof. repeat split. Qed.

(** A health report: the key is set and the service lists two models, one
    of them under its [name] attribute only. *)
Example health_example :
  health all_guards_on "llama-3.3-70b-versatile" (Some "gsk_key")
    (Some []) (Some [(Some "phi3:latest", None); (None, Some "gemma:2b"); (None, None)])
  = Health.mk "ok" true true "llama-3.3-70b-versatile" (guards all_guards_on)
      ["phi3:latest"; "gemma:2b"]
      [("safety", true); ("topic", true); ("format", false); ("pii", true)].
Proof. reflexivity. Qed.
